(** * ai-duka-whispers: the sales page, the offline-aware reader and the
      sales-trend chart

    A shallow embedding of three source files of the point-of-sale
    application:

    - the sales page component ([OptimizedModernSalesPage]): the cart
      handlers and the checkout orchestrator with its online and offline
      paths;
    - the hook [useOfflineAwareData] and its [fetchData];
    - the report component [EnhancedSalesTrendChart] and its [chartData].

    JavaScript numbers are modelled as [Z] (prices in the smallest currency
    unit, quantities and stock as integers); NaN and rounding are outside
    the model.  React state is passed explicitly: a handler is a function
    of the state its closure captured and returns the state it schedules. *)

From Stdlib Require Import ZArith List String Ascii Bool Lia.
From Stdlib Require Import Permutation Sorted DecimalString DecimalPos OrderedTypeEx.
Import ListNotations.

Local Open Scope Z_scope.
Local Open Scope list_scope.

(* ===================================================================== *)
(** * The sales page                                                       *)
(* ===================================================================== *)

Module SalesPage.

(** ** Data *)

(** [type PaymentMethod = 'cash' | 'mpesa' | 'debt'] *)
Inductive PaymentMethod : Type := cash | mpesa | debt.

Definition PaymentMethod_eqb (a b : PaymentMethod) : bool :=
  match a, b with
  | cash, cash | mpesa, mpesa | debt, debt => true
  | _, _ => false
  end.

(** The fields of [Product] that the page reads. *)
Record Product : Type := mkProduct {
  id : string;
  name : string;
  category : string;
  sellingPrice : Z;
  costPrice : Z;
  currentStock : Z
}.

(** [CartItem] is [{ ...product, quantity }]: the product's fields as they
    were when the line was created, and a quantity. *)
Record CartItem : Type := mkCartItem {
  product : Product;
  quantity : Z
}.

Definition Cart : Type := list CartItem.

Definition itemId (it : CartItem) : string := id (product it).

(** ** Cart handlers *)

(** [item.id === product.id ? { ...item, quantity: item.quantity + 1 } : item] *)
Definition bump (pid : string) (it : CartItem) : CartItem :=
  if (itemId it =? pid)%string
  then mkCartItem (product it) (quantity it + 1)
  else it.

(** [addToCart].  [confirmed] is the answer of [window.confirm], which is
    only asked when [product.currentStock === 0]. *)
Definition addToCart (confirmed : bool) (p : Product) (cart : Cart) : Cart :=
  if (currentStock p =? 0) && negb confirmed then cart
  else
    match find (fun it => (itemId it =? id p)%string) cart with
    | Some _ => map (bump (id p)) cart
    | None => cart ++ [mkCartItem p 1]
    end.

(** [removeFromCart] *)
Definition removeFromCart (pid : string) (cart : Cart) : Cart :=
  filter (fun it => negb (itemId it =? pid)%string) cart.

(** [item.id === productId ? { ...item, quantity: newQuantity } : item] *)
Definition setQty (pid : string) (q : Z) (it : CartItem) : CartItem :=
  if (itemId it =? pid)%string then mkCartItem (product it) q else it.

(** [updateQuantity] *)
Definition updateQuantity (pid : string) (newQuantity : Z) (cart : Cart) : Cart :=
  if newQuantity <=? 0 then removeFromCart pid cart
  else map (setQty pid newQuantity) cart.

(** [clearCart] *)
Definition clearCart (_ : Cart) : Cart := [].

(** The handlers that change the cart, as the user can trigger them. *)
Inductive CartAction : Type :=
| AddToCart (confirmed : bool) (p : Product)
| RemoveFromCart (pid : string)
| UpdateQuantity (pid : string) (newQuantity : Z)
| ClearCart.

Definition applyAction (cart : Cart) (a : CartAction) : Cart :=
  match a with
  | AddToCart c p => addToCart c p cart
  | RemoveFromCart pid => removeFromCart pid cart
  | UpdateQuantity pid q => updateQuantity pid q cart
  | ClearCart => clearCart cart
  end.

(** The cart after a sequence of actions, from the initial [useState([])]. *)
Definition cartAfter (acts : list CartAction) : Cart :=
  fold_left applyAction acts [].

(** The cart invariant: product ids are pairwise distinct and every line
    has a positive quantity. *)
Definition cartOk (cart : Cart) : Prop :=
  NoDup (map itemId cart) /\ Forall (fun it => 0 < quantity it) cart.

(** The line of a product, if the cart has one. *)
Definition lineOf (pid : string) (cart : Cart) : option CartItem :=
  find (fun it => (itemId it =? pid)%string) cart.

(** ** Customers, the signed-in user and sale rows *)

(** The fields of [Customer] that the page reads and writes. *)
Module Customer.
Record t : Type := mk {
  id : string;
  name : string;
  outstandingDebt : Z;
  totalPurchases : Z;
  lastPurchaseDate : option string
}.
End Customer.

Record User : Type := mkUser { userId : string }.

(** The object [saleData] built for each cart line; the field names are
    those of the [sales] table. *)
Module Sale.
Record t : Type := mk {
  user_id : string;
  product_id : string;
  product_name : string;
  quantity : Z;
  selling_price : Z;
  cost_price : Z;
  profit : Z;
  total_amount : Z;
  customer_id : option string;
  customer_name : option string;
  payment_method : PaymentMethod;
  payment_details : list (string * string);
  timestamp : string;
  synced : bool
}.
End Sale.

(** ** The world the checkout acts on *)

Inductive Toast : Type :=
| ToastCustomerRequired
| ToastSaleCompleted (offline : bool)
| ToastError.

(** What a handler does to the outside, in the order it does it.  A remote
    call is logged with what it sent and whether the service accepted it. *)
Inductive Effect : Type :=
| SetProcessing (b : bool)
| RemoteInsertSale (s : Sale.t) (accepted : bool)
| RemoteUpdateCustomer (cid : string) (debt purchases : Z) (date : string) (accepted : bool)
| RemoteUpdateStock (pid : string) (stock : Z) (accepted : bool)
| LocalQueueSale (s : Sale.t)
| ShowToast (t : Toast)
| ConsoleWarn (msg : string)
| ConsoleError (msg : string).

Record World : Type := mkWorld {
  salesTable : list Sale.t;
  productsTable : list Product;
  customersTable : list Customer.t;
  pendingQueue : list Sale.t;
  effects : list Effect
}.

(** The hosted service is an external collaborator: whether it rejects a
    write is an oracle over the state of the world and the write. *)
Record Remote : Type := mkRemote {
  saleInsertError : World -> Sale.t -> option string;
  customerUpdateError : World -> string -> option string;
  stockUpdateError : World -> string -> Z -> option string
}.

Definition emit (e : Effect) (w : World) : World :=
  mkWorld (salesTable w) (productsTable w) (customersTable w) (pendingQueue w)
          (effects w ++ [e]).

(** ** Asynchronous functions that may throw

    An [async] function is run to its end on the world; it either returns
    or throws, and what it did to the world before throwing stays done. *)

Inductive Completion (A : Type) : Type :=
| Returned (a : A)
| Thrown (msg : string).
Arguments Returned {A} a.
Arguments Thrown {A} msg.

Definition Task (A : Type) : Type := World -> Completion A * World.

Definition ret {A} (a : A) : Task A := fun w => (Returned a, w).
Definition throw {A} (msg : string) : Task A := fun w => (Thrown msg, w).
Definition bind {A B} (m : Task A) (k : A -> Task B) : Task B :=
  fun w =>
    match m w with
    | (Returned a, w1) => k a w1
    | (Thrown msg, w1) => (Thrown msg, w1)
    end.

Notation "x <- m ;; k" := (bind m (fun x => k))
  (at level 61, m at next level, right associativity).
Notation "m ;;; k" := (bind m (fun _ => k))
  (at level 61, right associativity).

(** [for (const x of l) { await body(x) }] *)
Fixpoint forEach {A} (body : A -> Task unit) (l : list A) : Task unit :=
  match l with
  | [] => ret tt
  | x :: rest => body x ;;; forEach body rest
  end.

(** ** Calls to the collaborators *)

(** [supabase.from('sales').insert(saleData)]: resolves to [{ error }]. *)
Definition insertSale (be : Remote) (s : Sale.t) : Task (option string) :=
  fun w =>
    match saleInsertError be w s with
    | Some msg => (Returned (Some msg), emit (RemoteInsertSale s false) w)
    | None =>
        (Returned None,
         emit (RemoteInsertSale s true)
              (mkWorld (salesTable w ++ [s]) (productsTable w) (customersTable w)
                       (pendingQueue w) (effects w)))
    end.

Definition patchCustomer (cid : string) (debt purchases : Z) (date : string)
    (c : Customer.t) : Customer.t :=
  if (Customer.id c =? cid)%string
  then Customer.mk (Customer.id c) (Customer.name c) debt purchases (Some date)
  else c.

(** Modelled from the spec: [updateCustomer] comes from the hook
    [useSupabaseCustomers], which is not among the sources.  The customers
    collection holds [outstanding_debt], [total_purchases] and
    [last_purchase_date] per customer id; the call writes the three values
    it is given into the row of that id.  Whether the call can reject is
    left to the oracle; a rejection propagates as an exception, as for any
    awaited promise. *)
Definition updateCustomer (be : Remote) (cid : string) (debt purchases : Z)
    (date : string) : Task unit :=
  fun w =>
    match customerUpdateError be w cid with
    | Some msg => (Thrown msg, emit (RemoteUpdateCustomer cid debt purchases date false) w)
    | None =>
        (Returned tt,
         emit (RemoteUpdateCustomer cid debt purchases date true)
              (mkWorld (salesTable w) (productsTable w)
                       (map (patchCustomer cid debt purchases date) (customersTable w))
                       (pendingQueue w) (effects w)))
    end.

Definition patchStock (pid : string) (stock : Z) (p : Product) : Product :=
  if (id p =? pid)%string
  then mkProduct (id p) (name p) (category p) (sellingPrice p) (costPrice p) stock
  else p.

(** [supabase.from('products').update({ current_stock }).eq('id', pid)]:
    resolves to [{ error }]. *)
Definition updateStock (be : Remote) (pid : string) (stock : Z) : Task (option string) :=
  fun w =>
    match stockUpdateError be w pid stock with
    | Some msg => (Returned (Some msg), emit (RemoteUpdateStock pid stock false) w)
    | None =>
        (Returned None,
         emit (RemoteUpdateStock pid stock true)
              (mkWorld (salesTable w) (map (patchStock pid stock) (productsTable w))
                       (customersTable w) (pendingQueue w) (effects w)))
    end.

(** Modelled from the spec: [createOfflineSale] comes from the hook
    [useOfflineSales], which is not among the sources.  The offline path
    "appends to the local pending queue; always succeeds locally (no remote
    round trip), increments the pending-operation count". *)
Definition createOfflineSale (s : Sale.t) : Task unit :=
  fun w =>
    (Returned tt,
     emit (LocalQueueSale s)
          (mkWorld (salesTable w) (productsTable w) (customersTable w)
                   (pendingQueue w ++ [s]) (effects w))).

(** Modelled from the spec: [pendingOperations] comes from the hook
    [useOfflineManager], which is not among the sources.  A pending
    operation is "a queued SaleRecord awaiting transmission; count of these
    drives the pending indicator". *)
Definition pendingOperations (w : World) : nat := List.length (pendingQueue w).

Definition say {A} (e : Effect) (a : A) : Task A := fun w => (Returned a, emit e w).

(** ** The checkout *)

Record PageState : Type := mkPageState {
  cart : Cart;
  selectedCustomerId : option string;
  paymentMethod : PaymentMethod;
  isProcessingCheckout : bool
}.

(** What the hooks hand to the render whose [handleCheckout] runs.  [now]
    is what [new Date().toISOString()] yields. *)
Record Hooks : Type := mkHooks {
  user : option User;
  customers : list Customer.t;
  isOnline : bool;
  now : string
}.

(** Truthiness of a [string | null]: [null] and the empty string are falsy. *)
Definition truthy (o : option string) : bool :=
  match o with
  | Some s => negb (s =? "")%string
  | None => false
  end.

(** [customer?.name || null] *)
Definition nameOrNull (customer : option Customer.t) : option string :=
  match customer with
  | Some c => if (Customer.name c =? "")%string then None else Some (Customer.name c)
  | None => None
  end.

(** [item.sellingPrice * item.quantity] *)
Definition lineTotal (it : CartItem) : Z := sellingPrice (product it) * quantity it.

(** The object literal [saleData] of both paths; they differ in [synced]. *)
Definition saleData (h : Hooks) (st : PageState) (u : User)
    (customerId : option string) (customer : option Customer.t)
    (isSynced : bool) (it : CartItem) : Sale.t :=
  Sale.mk (userId u) (id (product it)) (name (product it)) (quantity it)
          (sellingPrice (product it)) (costPrice (product it))
          ((sellingPrice (product it) - costPrice (product it)) * quantity it)
          (sellingPrice (product it) * quantity it)
          customerId (nameOrNull customer) (paymentMethod st) [] (now h) isSynced.

(** The body of the loop of [processOnlineSale]. *)
Definition onlineLine (be : Remote) (h : Hooks) (st : PageState) (u : User)
    (customerId : option string) (customer : option Customer.t) (it : CartItem)
    : Task unit :=
  saleError <- insertSale be (saleData h st u customerId customer true it) ;;
  match saleError with
  | Some msg =>
      throw ("Failed to create sale for " ++ name (product it) ++ ": " ++ msg)%string
  | None =>
      match paymentMethod st, customer with
      | debt, Some c =>
          updateCustomer be (Customer.id c)
            (Customer.outstandingDebt c + sellingPrice (product it) * quantity it)
            (Customer.totalPurchases c + sellingPrice (product it) * quantity it)
            (now h)
      | _, _ => ret tt
      end ;;;
      stockError <- updateStock be (id (product it))
                      (Z.max 0 (currentStock (product it) - quantity it)) ;;
      match stockError with
      | Some msg =>
          say (ConsoleWarn ("Failed to update stock for " ++ name (product it))%string) tt
      | None => ret tt
      end
  end.

(** [processOnlineSale] *)
Definition processOnlineSale (be : Remote) (h : Hooks) (st : PageState)
    (customerId : option string) (customer : option Customer.t) : Task unit :=
  match user h with
  | None => throw "User not authenticated"
  | Some u => forEach (onlineLine be h st u customerId customer) (cart st)
  end.

(** The body of the loop of [processOfflineSale]. *)
Definition offlineLine (h : Hooks) (st : PageState) (u : User)
    (customerId : option string) (customer : option Customer.t) (it : CartItem)
    : Task unit :=
  createOfflineSale (saleData h st u customerId customer false it).

(** [processOfflineSale] *)
Definition processOfflineSale (h : Hooks) (st : PageState)
    (customerId : option string) (customer : option Customer.t) : Task unit :=
  match user h with
  | None => throw "User not authenticated"
  | Some u => forEach (offlineLine h st u customerId customer) (cart st)
  end.

(** How one call of [handleCheckout] ends: it returns at once on an empty
    cart, it is refused by the validation, or it processes the cart and
    either completes or fails. *)
Inductive Outcome : Type := NotStarted | Rejected | Completed | Failed.

(** [selectedCustomerId ? customers.find(c => c.id === selectedCustomerId) || null : null] *)
Definition findCustomer (h : Hooks) (st : PageState) : option Customer.t :=
  match selectedCustomerId st with
  | Some cid =>
      if truthy (Some cid)
      then find (fun c => (Customer.id c =? cid)%string) (customers h)
      else None
  | None => None
  end.

(** [paymentMethod === 'debt' && !selectedCustomerId] *)
Definition customerMissing (st : PageState) : bool :=
  PaymentMethod_eqb (paymentMethod st) debt && negb (truthy (selectedCustomerId st)).

(** The dispatch inside the [try] block: [isOnline] is read once, before
    the loop over the cart. *)
Definition processCart (be : Remote) (h : Hooks) (st : PageState) : Task unit :=
  if isOnline h
  then processOnlineSale be h st (selectedCustomerId st) (findCustomer h st)
  else processOfflineSale h st (selectedCustomerId st) (findCustomer h st).

(** [handleCheckout]: the outcome, the page state it leaves and the world. *)
Definition handleCheckout (be : Remote) (h : Hooks) (st : PageState) (w : World)
    : Outcome * PageState * World :=
  match cart st with
  | [] => (NotStarted, st, w)
  | _ :: _ =>
      if customerMissing st
      then (Rejected, st, emit (ShowToast ToastCustomerRequired) w)
      else
        match processCart be h st (emit (SetProcessing true) w) with
        | (Returned _, w1) =>
            (Completed,
             mkPageState [] None cash false,
             emit (SetProcessing false)
                  (emit (ShowToast (ToastSaleCompleted (negb (isOnline h)))) w1))
        | (Thrown msg, w1) =>
            (Failed,
             mkPageState (cart st) (selectedCustomerId st) (paymentMethod st) false,
             emit (SetProcessing false)
                  (emit (ShowToast ToastError) (emit (ConsoleError msg) w1)))
        end
  end.

(** A sale row agrees with the cart line it was built from. *)
Definition rowOfLine (it : CartItem) (r : Sale.t) : Prop :=
  Sale.product_id r = id (product it)
  /\ Sale.quantity r = quantity it
  /\ Sale.selling_price r = sellingPrice (product it)
  /\ Sale.cost_price r = costPrice (product it)
  /\ Sale.total_amount r = sellingPrice (product it) * quantity it
  /\ Sale.profit r = (sellingPrice (product it) - costPrice (product it)) * quantity it.

(** ** Reading the log of effects *)

Definition insertAttempts (es : list Effect) : list Sale.t :=
  flat_map (fun e => match e with RemoteInsertSale s _ => [s] | _ => [] end) es.

Definition stockWrites (es : list Effect) : list (string * Z) :=
  flat_map (fun e => match e with RemoteUpdateStock pid v _ => [(pid, v)] | _ => [] end) es.

Definition customerWrites (es : list Effect) : list (string * Z * Z) :=
  flat_map (fun e => match e with
                     | RemoteUpdateCustomer cid d t _ _ => [(cid, d, t)]
                     | _ => []
                     end) es.

Definition toastsShown (es : list Effect) : list Toast :=
  flat_map (fun e => match e with ShowToast t => [t] | _ => [] end) es.

Definition busyFlags (es : list Effect) : list bool :=
  flat_map (fun e => match e with SetProcessing b => [b] | _ => [] end) es.

Definition isRemoteCall (e : Effect) : bool :=
  match e with
  | RemoteInsertSale _ _ | RemoteUpdateCustomer _ _ _ _ _ | RemoteUpdateStock _ _ _ => true
  | _ => false
  end.

Definition remoteCalls (es : list Effect) : list Effect := filter isRemoteCall es.

(** The stock that the loop of [processOnlineSale] sends for a line. *)
Definition stockSent (it : CartItem) : string * Z :=
  (id (product it), Z.max 0 (currentStock (product it) - quantity it)).

Definition outcomeOf (r : Outcome * PageState * World) : Outcome := fst (fst r).
Definition pageAfter (r : Outcome * PageState * World) : PageState := snd (fst r).
Definition worldAfter (r : Outcome * PageState * World) : World := snd r.

(** ** A small shop, for concrete runs *)

Definition maize : Product := mkProduct "p1" "Maize flour" "Food" 100 60 10.
Definition soap : Product := mkProduct "p2" "Bar soap" "Household" 50 30 0.
Definition amina : Customer.t := Customer.mk "c1" "Amina" 0 0 None.
Definition cashier : User := mkUser "u1".

Definition shop : World := mkWorld [] [maize; soap] [amina] [] [].

(** A service that accepts every write. *)
Definition reliable : Remote :=
  mkRemote (fun _ _ => None) (fun _ _ => None) (fun _ _ _ => None).

(** A service that rejects every sale row of product [p2]. *)
Definition rejectsSoap : Remote :=
  mkRemote (fun _ s => if (Sale.product_id s =? "p2")%string
                       then Some "new row violates row-level security policy"%string
                       else None)
           (fun _ _ => None) (fun _ _ _ => None).

Definition hooksAt (online : bool) : Hooks :=
  mkHooks (Some cashier) [amina] online "2025-03-01T09:30:00.000Z".

Definition twoLines : Cart := [mkCartItem maize 2; mkCartItem soap 1].

(** ** What the page shows *)

(** [cart.reduce((sum, item) => sum + item.sellingPrice * item.quantity, 0)] *)
Definition total (cart : Cart) : Z :=
  fold_left (fun sum item => sum + sellingPrice (product item) * quantity item) cart 0.

(** [s.includes(t)]: [t] occurs in [s], at its start or further on. *)
Fixpoint includes (s t : string) : bool :=
  String.prefix t s
  || match s with
     | EmptyString => false
     | String _ rest => includes rest t
     end.

(** [filteredProducts].  [toLowerCase] is the runtime's. *)
Definition filteredProducts (toLowerCase : string -> string)
    (products : list Product) (searchTerm : string) : list Product :=
  let term := toLowerCase searchTerm in
  filter (fun p => includes (toLowerCase (name p)) term
                   || includes (toLowerCase (category p)) term)
         products.

(** [stock.toString()] for an integer. *)
Definition numberToString (n : Z) : string := NilZero.string_of_int (Z.to_int n).

(** [getStockDisplayText] *)
Definition getStockDisplayText (stock : Z) : string :=
  if stock <? 0 then "Unspecified"
  else if stock =? 0 then "Out of Stock"
  else numberToString stock.

(** [getStockColorClass]; the page calls it without a threshold, which
    then is 10. *)
Definition getStockColorClass (stock lowStockThreshold : Z) : string :=
  if stock <? 0 then "text-gray-500 dark:text-gray-400"
  else if stock =? 0 then "text-orange-500 dark:text-orange-400"
  else if stock <=? lowStockThreshold then "text-yellow-500 dark:text-yellow-400"
  else "text-purple-500 dark:text-purple-400".

Definition defaultLowStockThreshold : Z := 10.

(** Whether [addToCart] asks for a confirmation: [product.currentStock === 0]. *)
Definition asksConfirmation (p : Product) : bool := currentStock p =? 0.

(** The minus and plus buttons of a cart line; minus is disabled while
    [item.quantity <= 1]. *)
Definition pressMinus (it : CartItem) (cart : Cart) : Cart :=
  if quantity it <=? 1 then cart else updateQuantity (itemId it) (quantity it - 1) cart.
Definition pressPlus (it : CartItem) (cart : Cart) : Cart :=
  updateQuantity (itemId it) (quantity it + 1) cart.

(** ASCII lower-casing, for concrete runs. *)
Definition lowerAscii (c : ascii) : ascii :=
  let n := nat_of_ascii c in
  if (Nat.leb 65 n && Nat.leb n 90)%bool then ascii_of_nat (n + 32) else c.

Fixpoint asciiLower (s : string) : string :=
  match s with
  | EmptyString => EmptyString
  | String c rest => String (lowerAscii c) (asciiLower rest)
  end.

(** A service that accepts every sale row but rejects every stock update. *)
Definition stockDown : Remote :=
  mkRemote (fun _ _ => None) (fun _ _ => None)
           (fun _ _ _ => Some "permission denied for table products"%string).

(** A service that accepts sale rows but rejects every customer update. *)
Definition customersDown : Remote :=
  mkRemote (fun _ _ => None) (fun _ _ => Some "customer update failed"%string)
           (fun _ _ _ => None).

(** ** The products table, for the stock decrement *)




End SalesPage.

(* ===================================================================== *)
(** * The hook useOfflineAwareData                                         *)
(* ===================================================================== *)

Module OfflineAwareData.

(** ** Data *)

(** The values a filter or a field of a cached record can hold.  Strict
    equality [===] on these is equality of the values (NaN is outside the
    model). *)
Inductive JsValue : Type :=
| JsUndefined
| JsNull
| JsBool (b : bool)
| JsNumber (z : Z)
| JsString (s : string).

Definition strictEq (a b : JsValue) : bool :=
  match a, b with
  | JsUndefined, JsUndefined => true
  | JsNull, JsNull => true
  | JsBool x, JsBool y => Bool.eqb x y
  | JsNumber x, JsNumber y => (x =? y)%Z
  | JsString x, JsString y => (x =? y)%string
  | _, _ => false
  end.

(** A record of a collection: its properties, in their order. *)
Definition Row : Type := list (string * JsValue).

(** [item[key]]: the first property of that name, [undefined] when the
    record has none. *)
Fixpoint getProp (item : Row) (key : string) : JsValue :=
  match item with
  | [] => JsUndefined
  | (k, v) :: rest => if (k =? key)%string then v else getProp rest key
  end.

(** [table: 'products' | 'customers' | 'sales' | 'transactions'] *)
Inductive Table : Type := products | customers | sales | transactions.

Definition Table_eqb (a b : Table) : bool :=
  match a, b with
  | products, products | customers, customers
  | sales, sales | transactions, transactions => true
  | _, _ => false
  end.

(** [filters: Record<string, any>], as [Object.entries] lists it. *)
Definition Filters : Type := list (string * JsValue).

(** [value !== undefined && value !== null] *)
Definition isSet (value : JsValue) : bool :=
  match value with
  | JsUndefined | JsNull => false
  | _ => true
  end.

(** A thrown value: whether it is an [Error], and its message. *)
Record Exn : Type := mkExn {
  isError : bool;
  message : string
}.

(** What [await query] resolves to: [{ data, error }]. *)
Record QueryResult : Type := mkQueryResult {
  freshData : option (list Row);
  fetchError : option Exn
}.

(** The state of the hook that [fetchData] sets. *)
Record HookState : Type := mkHookState {
  data : list Row;
  loading : bool;
  error : option string
}.

Inductive Effect : Type :=
| RemoteQuery (t : Table) (select : string) (eqs : Filters)
| CacheRead (t : Table)
| CacheWrite (t : Table) (rows : list Row)
| ConsoleError.

(** The cache store and the log of what [fetchData] did. *)
Record World : Type := mkWorld {
  cache : Table -> option (list Row);
  log : list Effect
}.

(** The collaborators: connectivity, the hosted service, and whether the
    cache store fails on a read or a write (which may depend on what has
    been done so far). *)
Record Env : Type := mkEnv {
  isOnline : bool;
  runQuery : Table -> string -> Filters -> Exn + QueryResult;
  cacheReadError : list Effect -> Table -> option Exn;
  cacheWriteError : list Effect -> Table -> option Exn
}.

Definition note (e : Effect) (w : World) : World := mkWorld (cache w) (log w ++ [e]).

(** ** Calls to the collaborators *)

(** Modelled from the spec: [getOfflineData] comes from the hook
    [useOfflineFirst], which is not among the sources.  The cache store's
    [get] "returns last-stored snapshot" of the collection; a miss yields
    no snapshot ([null], which [fetchData] turns into [[]]).  A failure of
    the store is left to the oracle. *)
Definition getOfflineData (env : Env) (t : Table) (w : World)
    : (Exn + option (list Row)) * World :=
  match cacheReadError env (log w) t with
  | Some e => (inl e, note (CacheRead t) w)
  | None => (inr (cache w t), note (CacheRead t) w)
  end.

(** Modelled from the spec: [storeOfflineData] comes from the hook
    [useOfflineFirst], which is not among the sources.  The cache store's
    [put] "replaces ... the cached snapshot for a collection". *)
Definition storeOfflineData (env : Env) (t : Table) (rows : list Row) (w : World)
    : (Exn + unit) * World :=
  match cacheWriteError env (log w) t with
  | Some e => (inl e, note (CacheWrite t rows) w)
  | None =>
      (inr tt,
       note (CacheWrite t rows)
            (mkWorld (fun t' => if Table_eqb t' t then Some rows else cache w t') (log w)))
  end.

(** ** fetchData *)

(** The [.eq(key, value)] calls the online branch adds to the query. *)
Definition eqConstraints (filters : Filters) : Filters :=
  filter (fun kv => isSet (snd kv)) filters.

(** The loop of the offline branch:
    [Object.entries(filters).forEach(([key, value]) => { if (set)
       filteredData = filteredData.filter(item => item[key] === value) })] *)
Definition applyFilters (filters : Filters) (cachedData : list Row) : list Row :=
  fold_left
    (fun filteredData kv =>
       if isSet (snd kv)
       then filter (fun item => strictEq (getProp item (fst kv)) (snd kv)) filteredData
       else filteredData)
    filters cachedData.

(** [cachedData || []] *)
Definition orEmpty (cachedData : option (list Row)) : list Row :=
  match cachedData with
  | Some rows => rows
  | None => []
  end.

Definition setData (d : list Row) (hs : HookState) : HookState :=
  mkHookState d (loading hs) (error hs).
Definition setLoading (b : bool) (hs : HookState) : HookState :=
  mkHookState (data hs) b (error hs).
Definition setError (e : option string) (hs : HookState) : HookState :=
  mkHookState (data hs) (loading hs) e.

(** The body of the [try] block: it either throws or ends with the state
    it has set. *)
Definition tryBlock (env : Env) (t : Table) (select : string) (filters : Filters)
    (hs : HookState) (w : World) : (Exn + HookState) * World :=
  if isOnline env then
    let w1 := note (RemoteQuery t select (eqConstraints filters)) w in
    match runQuery env t select (eqConstraints filters) with
    | inl e => (inl e, w1)
    | inr res =>
        match fetchError res with
        | Some e => (inl e, w1)
        | None =>
            match freshData res with
            | Some rows =>
                match storeOfflineData env t rows w1 with
                | (inl e, w2) => (inl e, w2)
                | (inr _, w2) => (inr (setData rows hs), w2)
                end
            | None => (inr hs, w1)
            end
        end
    end
  else
    match getOfflineData env t w with
    | (inl e, w1) => (inl e, w1)
    | (inr cachedData, w1) =>
        (inr (setData (applyFilters filters (orEmpty cachedData)) hs), w1)
    end.

(** [err instanceof Error ? err.message : 'Unknown error occurred'] *)
Definition errorText (e : Exn) : string :=
  if isError e then message e else "Unknown error occurred".

(** The [catch] block. *)
Definition catchBlock (env : Env) (t : Table) (e : Exn) (hs : HookState) (w : World)
    : HookState * World :=
  let hs1 := setError (Some (errorText e)) hs in
  match getOfflineData env t (note ConsoleError w) with
  | (inl _, w1) => (hs1, note ConsoleError w1)
  | (inr (Some fallbackData), w1) => (setData fallbackData hs1, w1)
  | (inr None, w1) => (hs1, w1)
  end.

(** [fetchData]: it never throws; it ends with the state of the hook. *)
Definition fetchData (env : Env) (t : Table) (select : string) (filters : Filters)
    (hs : HookState) (w : World) : HookState * World :=
  let hs0 := setError None (setLoading true hs) in
  match tryBlock env t select filters hs0 w with
  | (inr hs1, w1) => (setLoading false hs1, w1)
  | (inl e, w1) =>
      let (hs1, w2) := catchBlock env t e hs0 w1 in
      (setLoading false hs1, w2)
  end.

(** The reference for the offline read: the cached rows that agree with
    every filter whose value is set. *)
Definition matchesAll (filters : Filters) (item : Row) : bool :=
  forallb (fun kv => negb (isSet (snd kv)) || strictEq (getProp item (fst kv)) (snd kv))
          filters.

Definition remoteQueries (es : list Effect) : list Effect :=
  filter (fun e => match e with RemoteQuery _ _ _ => true | _ => false end) es.

(** ** A small cache, for concrete runs *)

Definition flourRow : Row :=
  [("id"%string, JsString "p1"); ("category"%string, JsString "Food")].
Definition soapRow : Row :=
  [("id"%string, JsString "p2"); ("category"%string, JsString "Household")].

Definition stocked : World :=
  mkWorld (fun t => match t with products => Some [flourRow; soapRow] | _ => None end) [].

Definition foodOnly : Filters :=
  [("category"%string, JsString "Food"); ("supplier"%string, JsNull)].

Definition initial : HookState := mkHookState [] true None.

(** No connectivity; the cache store works. *)
Definition offlineEnv : Env :=
  mkEnv false (fun _ _ _ => inr (mkQueryResult None None))
        (fun _ _ => None) (fun _ _ => None).

(** Connectivity, but the service answers every query with an error. *)
Definition failingEnv : Env :=
  mkEnv true
        (fun _ _ _ => inr (mkQueryResult None (Some (mkExn true "JWT expired"))))
        (fun _ _ => None) (fun _ _ => None).

End OfflineAwareData.

(* ===================================================================== *)
(** * The component EnhancedSalesTrendChart                                *)
(* ===================================================================== *)

Module SalesTrendChart.

(** ** Data *)

(** [type TimeframeType = 'hourly' | 'daily' | 'monthly'] *)
Inductive TimeframeType : Type := hourly | daily | monthly.

Record PaymentDetails : Type := mkPaymentDetails {
  discountAmount : option Z
}.

(** The fields of [Sale] that the chart reads.  [timestamp] is the instant
    that [new Date(sale.timestamp)] denotes, in milliseconds since the
    epoch. *)
Record Sale : Type := mkSale {
  timestamp : Z;
  total : Z;
  paymentDetails : option PaymentDetails
}.

(** [interface ChartDataPoint]; its [timestamp] is the bucket key again. *)
Record ChartDataPoint : Type := mkPoint {
  label : string;
  revenue : Z;
  pointTimestamp : string;
  displayLabel : string
}.

(** What the runtime's [Date] gives for an instant, in its local time
    zone, and how it prints a bucket key for display. *)
Record DateApi : Type := mkDateApi {
  getFullYear : Z -> Z;
  getMonth : Z -> Z;
  getDate : Z -> Z;
  getHours : Z -> Z;
  (** [new Date(year, monthIndex, day)] *)
  makeDate : Z -> Z -> Z -> Z;
  (** [d.setDate(n)] *)
  setDate : Z -> Z -> Z;
  (** [m.setMonth(n)] *)
  setMonth : Z -> Z -> Z;
  (** the [displayLabel] of a key: [split], [parseInt] and the formatting
      of the locale *)
  display : TimeframeType -> string -> string
}.

(** ** Bucket keys *)

(** [String(n)] for an integer. *)
Definition decimal (n : Z) : string := NilZero.string_of_int (Z.to_int n).

(** [s.padStart(2, '0')] *)
Definition padStart2 (s : string) : string :=
  match String.length s with
  | O => "00"
  | S O => "0" ++ s
  | _ => s
  end.

Definition two (n : Z) : string := padStart2 (decimal n).

Definition monthKey (api : DateApi) (t : Z) : string :=
  decimal (getFullYear api t) ++ "-" ++ two (getMonth api t + 1).

Definition dayKey (api : DateApi) (t : Z) : string :=
  monthKey api t ++ "-" ++ two (getDate api t).

Definition hourKey (api : DateApi) (t : Z) : string :=
  dayKey api t ++ "-" ++ two (getHours api t).

(** ** The map from bucket key to revenue

    A [Map<string, number>] keeps its keys in insertion order; [set] on a
    key it has replaces the value in place. *)
Definition DataMap : Type := list (string * Z).

Fixpoint mapGet (m : DataMap) (key : string) : option Z :=
  match m with
  | [] => None
  | (k, v) :: rest => if (k =? key)%string then Some v else mapGet rest key
  end.

Fixpoint mapSet (m : DataMap) (key : string) (value : Z) : DataMap :=
  match m with
  | [] => [(key, value)]
  | (k, v) :: rest =>
      if (k =? key)%string then (k, value) :: rest else (k, v) :: mapSet rest key value
  end.

(** [dataMap.get(key) || 0] *)
Definition getOrZero (m : DataMap) (key : string) : Z :=
  match mapGet m key with
  | Some v => v
  | None => 0
  end.

(** [sale.paymentDetails?.discountAmount || 0] *)
Definition discountOf (sale : Sale) : Z :=
  match paymentDetails sale with
  | Some pd => match discountAmount pd with Some d => d | None => 0 end
  | None => 0
  end.

(** [Math.max(0, sale.total - (sale.paymentDetails?.discountAmount || 0))] *)
Definition contribution (sale : Sale) : Z := Z.max 0 (total sale - discountOf sale).

(** The three [sales.forEach] loops: a sale inside the window adds its
    contribution to the bucket of its key. *)
Definition aggregate (inWindow : Z -> bool) (keyOf : Z -> string)
    (sales : list Sale) (dataMap : DataMap) : DataMap :=
  fold_left
    (fun m sale =>
       if inWindow (timestamp sale)
       then mapSet m (keyOf (timestamp sale))
                   (getOrZero m (keyOf (timestamp sale)) + contribution sale)
       else m)
    sales dataMap.

(** ** Sorting the entries *)

(** [a.localeCompare(b)].  Bucket keys are made of digits and hyphens, on
    which the collation order is the order of the characters. *)
Definition localeCompare (a b : string) : comparison := String.compare a b.

Fixpoint insertEntry (e : string * Z) (l : list (string * Z)) : list (string * Z) :=
  match l with
  | [] => [e]
  | y :: rest =>
      match localeCompare (fst e) (fst y) with
      | Gt => y :: insertEntry e rest
      | _ => e :: l
      end
  end.

(** [.sort(([a], [b]) => a.localeCompare(b))]: a stable sort by key. *)
Definition sortEntries (l : list (string * Z)) : list (string * Z) :=
  fold_right insertEntry [] l.

(** ** The windows and the buckets that start at 0 *)

Definition hourMs : Z := 60 * 60 * 1000.
Definition dayMs : Z := 24 * 60 * 60 * 1000.

(** [sales.length ? new Date(Math.min(...timestamps)) : null] *)
Definition earliestSaleDate (sales : list Sale) : option Z :=
  match sales with
  | [] => None
  | s :: rest => Some (fold_left (fun m x => Z.min m (timestamp x)) rest (timestamp s))
  end.

(** [for (let i = 47; i >= 0; i--) dataMap.set(key(now - i hours), 0)] *)
Definition hourlyBuckets (api : DateApi) (now : Z) : DataMap :=
  fold_left (fun m i => mapSet m (hourKey api (now - Z.of_nat i * hourMs)) 0)
            (rev (seq 0 48)) [].

(** The start of the daily range: the day of the earliest sale, but not
    more than 365 days back. *)
Definition dailyStart (api : DateApi) (now : Z) (sales : list Sale) : Z :=
  let capStart := now - 365 * dayMs in
  let candidate :=
    match earliestSaleDate sales with
    | Some e => makeDate api (getFullYear api e) (getMonth api e) (getDate api e)
    | None => capStart
    end in
  Z.max candidate capStart.

(** [for (d = new Date(startDate); d <= now; d.setDate(d.getDate() + 1))].
    The range is capped at 365 days, so the loop ends within 367 rounds;
    the counter only makes the recursion structural. *)
Fixpoint dayLoop (api : DateApi) (rounds : nat) (d now : Z) (m : DataMap) : DataMap :=
  match rounds with
  | O => m
  | S rounds' =>
      if d <=? now
      then dayLoop api rounds' (setDate api d (getDate api d + 1)) now
                   (mapSet m (dayKey api d) 0)
      else m
  end.

(** The start of the monthly range: the month of the earliest sale, but
    not more than 35 months back. *)
Definition monthlyStart (api : DateApi) (now : Z) (sales : list Sale) : Z :=
  let capStartMonth := makeDate api (getFullYear api now) (getMonth api now - 35) 1 in
  let candidateMonth :=
    match earliestSaleDate sales with
    | Some e => makeDate api (getFullYear api e) (getMonth api e) 1
    | None => capStartMonth
    end in
  Z.max candidateMonth capStartMonth.

(** [for (m = first of startMonth; m <= endMonth; m.setMonth(m.getMonth() + 1))],
    at most 36 rounds. *)
Fixpoint monthLoop (api : DateApi) (rounds : nat) (m endMonth : Z) (acc : DataMap)
    : DataMap :=
  match rounds with
  | O => acc
  | S rounds' =>
      if m <=? endMonth
      then monthLoop api rounds' (setMonth api m (getMonth api m + 1)) endMonth
                     (mapSet acc (monthKey api m) 0)
      else acc
  end.

(** The key of the bucket of an instant, per timeframe. *)
Definition keyOf (api : DateApi) (tf : TimeframeType) : Z -> string :=
  match tf with
  | hourly => hourKey api
  | daily => dayKey api
  | monthly => monthKey api
  end.

(** The condition under which a sale is aggregated, per timeframe. *)
Definition inWindow (api : DateApi) (tf : TimeframeType) (now : Z) (sales : list Sale)
    (t : Z) : bool :=
  match tf with
  | hourly => now - 48 * hourMs <=? t
  | daily => (dailyStart api now sales <=? t) && (t <=? now)
  | monthly => (monthlyStart api now sales <=? t) && (t <=? now)
  end.

(** The buckets that exist before any sale is aggregated. *)
Definition emptyBuckets (api : DateApi) (tf : TimeframeType) (now : Z) (sales : list Sale)
    : DataMap :=
  match tf with
  | hourly => hourlyBuckets api now
  | daily => dayLoop api 400 (dailyStart api now sales) now []
  | monthly =>
      let startMonth := monthlyStart api now sales in
      monthLoop api 40
        (makeDate api (getFullYear api startMonth) (getMonth api startMonth) 1)
        (makeDate api (getFullYear api now) (getMonth api now) 1) []
  end.

Definition toPoint (api : DateApi) (tf : TimeframeType) (e : string * Z) : ChartDataPoint :=
  mkPoint (fst e) (snd e) (fst e) (display api tf (fst e)).

(** [chartData], for the instant [now] at which it is computed. *)
Definition chartData (api : DateApi) (tf : TimeframeType) (now : Z) (sales : list Sale)
    : list ChartDataPoint :=
  map (toPoint api tf)
      (sortEntries
         (aggregate (inWindow api tf now sales) (keyOf api tf) sales
                    (emptyBuckets api tf now sales))).

(** [chartData.reduce((sum, item) => sum + item.revenue, 0)] *)
Definition totalRevenue (chart : list ChartDataPoint) : Z :=
  fold_left (fun sum item => sum + revenue item) chart 0.

(** ** Sums used to state the properties *)

Fixpoint sumZ (l : list Z) : Z :=
  match l with
  | [] => 0
  | x :: rest => x + sumZ rest
  end.

(** The revenue the chart shows under a key. *)
Definition bucketRevenue (chart : list ChartDataPoint) (key : string) : Z :=
  sumZ (map revenue (filter (fun p => (label p =? key)%string) chart)).

(** The sum of all values of a map, and of those under one key. *)
Definition sumValues (m : DataMap) : Z := sumZ (map snd m).


(** What the maps of the chart have in common: no key twice, no negative
    value. *)
Definition wellKept (m : DataMap) : Prop :=
  NoDup (map fst m) /\ Forall (fun e => 0 <= snd e) m.

Definition allZero (m : DataMap) : Prop := Forall (fun e => snd e = 0) m.


(** The calendar fields a bucket key is made of, and the order of the
    calendar on them. *)
Definition plausible (api : DateApi) (t : Z) : Prop :=
  1000 <= getFullYear api t <= 9999
  /\ 0 <= getMonth api t <= 11
  /\ 1 <= getDate api t <= 31
  /\ 0 <= getHours api t <= 23.

Definition thenBy (c d : comparison) : comparison :=
  match c with
  | Eq => d
  | _ => c
  end.

Definition calendarCompare (api : DateApi) (tf : TimeframeType) (t1 t2 : Z) : comparison :=
  let byMonth :=
    thenBy (getFullYear api t1 ?= getFullYear api t2)
           (getMonth api t1 ?= getMonth api t2) in
  let byDay := thenBy byMonth (getDate api t1 ?= getDate api t2) in
  match tf with
  | monthly => byMonth
  | daily => byDay
  | hourly => thenBy byDay (getHours api t1 ?= getHours api t2)
  end.

Definition comparison_eqb (c d : comparison) : bool :=
  match c, d with
  | Eq, Eq | Lt, Lt | Gt, Gt => true
  | _, _ => false
  end.

(** The numbers from [lo] on, [count] of them. *)
Definition upFrom (lo count : Z) : list Z :=
  map (fun i => lo + Z.of_nat i) (seq 0 (Z.to_nat count)).

(** The sales that the aggregation loop takes in. *)
Definition counted (api : DateApi) (tf : TimeframeType) (now : Z) (sales : list Sale)
    : list Sale :=
  filter (fun s => inWindow api tf now sales (timestamp s)) sales.

(** ** A runtime whose local time is UTC *)

Definition daysFromCivil (y m d : Z) : Z :=
  let y' := if m <=? 2 then y - 1 else y in
  let era := y' / 400 in
  let yoe := y' - era * 400 in
  let doy := (153 * (if 2 <? m then m - 3 else m + 9) + 2) / 5 + d - 1 in
  let doe := yoe * 365 + yoe / 4 - yoe / 100 + doy in
  era * 146097 + doe - 719468.

(** Year, month (1 to 12) and day of the month of a day number. *)
Definition civilFromDays (z0 : Z) : Z * Z * Z :=
  let z := z0 + 719468 in
  let era := z / 146097 in
  let doe := z - era * 146097 in
  let yoe := (doe - doe / 1460 + doe / 36524 - doe / 146096) / 365 in
  let doy := doe - (365 * yoe + yoe / 4 - yoe / 100) in
  let mp := (5 * doy + 2) / 153 in
  let d := doy - (153 * mp + 2) / 5 + 1 in
  let m := if mp <? 10 then mp + 3 else mp - 9 in
  (yoe + era * 400 + (if m <=? 2 then 1 else 0), m, d).

Definition utcMakeDate (year monthIndex day : Z) : Z :=
  (daysFromCivil (year + monthIndex / 12) (monthIndex mod 12 + 1) 1 + (day - 1)) * dayMs.

Definition utcYear (t : Z) : Z := fst (fst (civilFromDays (t / dayMs))).
Definition utcMonth (t : Z) : Z := snd (fst (civilFromDays (t / dayMs))) - 1.
Definition utcDay (t : Z) : Z := snd (civilFromDays (t / dayMs)).

Definition utc : DateApi :=
  mkDateApi utcYear utcMonth utcDay
            (fun t => (t mod dayMs) / hourMs)
            utcMakeDate
            (fun t n => utcMakeDate (utcYear t) (utcMonth t) n + t mod dayMs)
            (fun t n => utcMakeDate (utcYear t) n (utcDay t) + t mod dayMs)
            (fun _ key => key).

(** 2025-03-01T09:30:00Z *)
Definition march1 : Z := utcMakeDate 2025 2 1 + 9 * hourMs + 30 * 60 * 1000.

(** A sale of 500 made three days before [march1], and one of 200 with a
    discount of 50 made one hour before it. *)
Definition oldSale : Sale := mkSale (march1 - 72 * hourMs) 500 None.
Definition freshSale : Sale :=
  mkSale (march1 - hourMs) 200 (Some (mkPaymentDetails (Some 50))).

(** The oldest instant a timeframe reaches back to, and the start of the
    bucket of an instant (itself, hourly). *)
Definition windowCap (api : DateApi) (tf : TimeframeType) (now : Z) : Z :=
  match tf with
  | hourly => now - 48 * hourMs
  | daily => now - 365 * dayMs
  | monthly => makeDate api (getFullYear api now) (getMonth api now - 35) 1
  end.

Definition bucketStart (api : DateApi) (tf : TimeframeType) (t : Z) : Z :=
  match tf with
  | hourly => t
  | daily => makeDate api (getFullYear api t) (getMonth api t) (getDate api t)
  | monthly => makeDate api (getFullYear api t) (getMonth api t) 1
  end.

(** A sale made the year before [march1]. *)
Definition lastYearSale : Sale := mkSale (march1 - 300 * dayMs) 80 None.

(** A sale of 70 dated two hours after [march1]. *)
Definition futureSale : Sale := mkSale (march1 + 2 * hourMs) 70 None.

End SalesTrendChart.

(* ===================================================================== *)
(** * Properties of the sales page                                         *)
(* ===================================================================== *)

Module SalesPageFacts.
Import SalesPage.

(** ** Facts about the cart handlers *)

Lemma itemId_bump pid it : itemId (bump pid it) = itemId it.
Proof. unfold bump. destruct (itemId it =? pid)%string; reflexivity. Qed.

Lemma itemId_setQty pid q it : itemId (setQty pid q it) = itemId it.
Proof. unfold setQty. destruct (itemId it =? pid)%string; reflexivity. Qed.

Lemma map_itemId_bump pid cart : map itemId (map (bump pid) cart) = map itemId cart.
Proof.
  rewrite map_map. apply map_ext. intro it. apply itemId_bump.
Qed.

Lemma map_itemId_setQty pid q cart :
  map itemId (map (setQty pid q) cart) = map itemId cart.
Proof.
  rewrite map_map. apply map_ext. intro it. apply itemId_setQty.
Qed.

Lemma lineOf_None_notin pid cart :
  lineOf pid cart = None -> ~ In pid (map itemId cart).
Proof.
  unfold lineOf. intros Hnone Hin.
  apply in_map_iff in Hin. destruct Hin as [it [Hid Hit]].
  apply (find_none _ _ Hnone) in Hit.
  rewrite Hid, String.eqb_refl in Hit. discriminate.
Qed.

Lemma lineOf_Some_in pid cart it :
  lineOf pid cart = Some it -> In it cart /\ itemId it = pid.
Proof.
  unfold lineOf. intro H. apply find_some in H. destruct H as [Hin Heq].
  split; [assumption | now apply String.eqb_eq].
Qed.

Lemma removeFromCart_ids pid cart :
  map itemId (removeFromCart pid cart)
  = filter (fun i => negb (i =? pid)%string) (map itemId cart).
Proof.
  unfold removeFromCart. induction cart as [|it cart IH]; simpl; [reflexivity|].
  destruct (itemId it =? pid)%string; simpl; now rewrite IH.
Qed.

Lemma NoDup_filter {A} (f : A -> bool) (l : list A) :
  NoDup l -> NoDup (filter f l).
Proof.
  induction 1 as [|x l Hx Hnd IH]; simpl; [constructor|].
  destruct (f x); [constructor; [|assumption] | assumption].
  intro Hin. apply filter_In in Hin. tauto.
Qed.

Lemma cartOk_nil : cartOk [].
Proof. split; constructor. Qed.

Lemma cartOk_addToCart c p cart : cartOk cart -> cartOk (addToCart c p cart).
Proof.
  intros [Hnd Hq]. unfold addToCart.
  destruct ((currentStock p =? 0) && negb c); [split; assumption|].
  fold (lineOf (id p) cart). destruct (lineOf (id p) cart) eqn:Hl.
  - split.
    + now rewrite map_itemId_bump.
    + apply Forall_map. eapply Forall_impl; [|exact Hq].
      intros it Hpos. unfold bump. simpl in Hpos.
      destruct (itemId it =? id p)%string; simpl; lia.
  - split.
    + rewrite map_app. simpl.
      apply NoDup_app; [assumption | repeat constructor; intros [] |].
      intros x Hx [Hx'|[]]. subst x.
      now apply (lineOf_None_notin _ _ Hl).
    + apply Forall_app. split; [assumption|]. repeat constructor.
Qed.

Lemma cartOk_removeFromCart pid cart : cartOk cart -> cartOk (removeFromCart pid cart).
Proof.
  intros [Hnd Hq]. split.
  - rewrite removeFromCart_ids. now apply NoDup_filter.
  - unfold removeFromCart. rewrite Forall_forall in *.
    intros it Hin. apply filter_In in Hin. now apply Hq.
Qed.

Lemma cartOk_updateQuantity pid q cart : cartOk cart -> cartOk (updateQuantity pid q cart).
Proof.
  intros Hok. unfold updateQuantity. destruct (q <=? 0) eqn:Hle.
  - now apply cartOk_removeFromCart.
  - destruct Hok as [Hnd Hq]. apply Z.leb_gt in Hle. split.
    + now rewrite map_itemId_setQty.
    + apply Forall_map. eapply Forall_impl; [|exact Hq].
      intros it Hpos. unfold setQty. simpl in Hpos.
      destruct (itemId it =? pid)%string; simpl; lia.
Qed.

Lemma cartOk_applyAction cart a : cartOk cart -> cartOk (applyAction cart a).
Proof.
  destruct a; simpl; intro H.
  - now apply cartOk_addToCart.
  - now apply cartOk_removeFromCart.
  - now apply cartOk_updateQuantity.
  - apply cartOk_nil.
Qed.

Lemma cartOk_fold acts : forall cart, cartOk cart -> cartOk (fold_left applyAction acts cart).
Proof.
  induction acts as [|a acts IH]; simpl; intros cart H; [assumption|].
  apply IH. now apply cartOk_applyAction.
Qed.

Lemma cartOk_cartAfter acts : cartOk (cartAfter acts).
Proof. apply cartOk_fold, cartOk_nil. Qed.

(** ** Facts about tasks and the loops *)

Lemma forEach_app {A} (body : A -> Task unit) (l1 l2 : list A) (w : World) :
  forEach body (l1 ++ l2) w
  = match forEach body l1 w with
    | (Returned _, w1) => forEach body l2 w1
    | (Thrown msg, w1) => (Thrown msg, w1)
    end.
Proof.
  revert w. induction l1 as [|x l1 IH]; intro w; simpl; [reflexivity|].
  unfold bind. destruct (body x w) as [[[]|msg] w1]; [apply IH | reflexivity].
Qed.

Lemma forEach_cons_returned {A} (body : A -> Task unit) x l w w' :
  forEach body (x :: l) w = (Returned tt, w') ->
  exists w1, body x w = (Returned tt, w1) /\ forEach body l w1 = (Returned tt, w').
Proof.
  simpl. unfold bind. destruct (body x w) as [[[]|msg] w1]; intro H.
  - exists w1. split; [reflexivity | assumption].
  - discriminate.
Qed.

(** Unfolds the calls of one loop body and splits on every oracle answer. *)
Ltac run_task :=
  unfold onlineLine, offlineLine, createOfflineSale, bind, insertSale,
    updateCustomer, updateStock, say, ret, throw in *;
  repeat match goal with
         | H : (_, _) = (_, _) |- _ => inversion H; subst; clear H
         | H : context [match ?x with _ => _ end] |- _ => destruct x eqn:?
         | |- context [match ?x with _ => _ end] => destruct x eqn:?
         end;
  try discriminate.

Ltac log_simpl :=
  unfold insertAttempts, stockWrites, customerWrites, toastsShown, busyFlags,
    remoteCalls, emit in *;
  simpl in *;
  repeat (rewrite ?flat_map_app, ?filter_app in *; simpl in *);
  rewrite ?app_nil_r in *.

Section OnlineLine.
Variables (be : Remote) (h : Hooks) (st : PageState) (u : User).
Variables (cid : option string) (cust : option Customer.t).

Local Abbreviation sale := (saleData h st u cid cust true).
Local Abbreviation line := (onlineLine be h st u cid cust).

(** A line that returns has inserted its sale row and sent its stock. *)
Lemma onlineLine_returned it w w' :
  line it w = (Returned tt, w') ->
  saleInsertError be w (sale it) = None
  /\ salesTable w' = salesTable w ++ [sale it]
  /\ pendingQueue w' = pendingQueue w
  /\ insertAttempts (effects w') = insertAttempts (effects w) ++ [sale it]
  /\ stockWrites (effects w') = stockWrites (effects w) ++ [stockSent it]
  /\ toastsShown (effects w') = toastsShown (effects w)
  /\ busyFlags (effects w') = busyFlags (effects w).
Proof.
  unfold stockSent. intro H. run_task; log_simpl;
    repeat split; try reflexivity; assumption.
Qed.

(** Whatever a line does, it shows no toast, leaves the busy flag and the
    pending queue alone, and sends at most its own stock value. *)
Lemma onlineLine_any it w r w' :
  line it w = (r, w') ->
  pendingQueue w' = pendingQueue w
  /\ toastsShown (effects w') = toastsShown (effects w)
  /\ busyFlags (effects w') = busyFlags (effects w)
  /\ (stockWrites (effects w') = stockWrites (effects w)
      \/ stockWrites (effects w') = stockWrites (effects w) ++ [stockSent it]).
Proof.
  unfold stockSent. intro H. run_task; log_simpl;
    repeat split; try reflexivity; auto.
Qed.

(** A line whose insert is rejected throws at once. *)
Lemma onlineLine_rejected it w msg :
  saleInsertError be w (sale it) = Some msg ->
  exists m, line it w = (Thrown m, emit (RemoteInsertSale (sale it) false) w).
Proof.
  intro H. unfold onlineLine, bind, insertSale, throw.
  rewrite H. eexists. reflexivity.
Qed.

(** Without a debt sale to a known customer no customer row is touched. *)
Lemma onlineLine_customers it w r w' :
  paymentMethod st <> debt \/ cust = None ->
  line it w = (r, w') ->
  customersTable w' = customersTable w
  /\ customerWrites (effects w') = customerWrites (effects w).
Proof.
  intros Hno H.
  assert (Hskip : match paymentMethod st, cust with
                  | debt, Some _ => False
                  | _, _ => True
                  end).
  { destruct Hno as [Hpm | Hc].
    - destruct (paymentMethod st); try exact I. now elim Hpm.
    - rewrite Hc. destruct (paymentMethod st); exact I. }
  unfold onlineLine in H.
  destruct (paymentMethod st), cust; try contradiction;
    run_task; log_simpl; split; reflexivity.
Qed.

Lemma online_loop_returned l : forall w w',
  forEach line l w = (Returned tt, w') ->
  salesTable w' = salesTable w ++ map sale l
  /\ pendingQueue w' = pendingQueue w
  /\ insertAttempts (effects w') = insertAttempts (effects w) ++ map sale l
  /\ stockWrites (effects w') = stockWrites (effects w) ++ map stockSent l
  /\ toastsShown (effects w') = toastsShown (effects w)
  /\ busyFlags (effects w') = busyFlags (effects w).
Proof.
  induction l as [|it l IH]; intros w w' H.
  - inversion H; subst. simpl. rewrite !app_nil_r. repeat split; reflexivity.
  - apply forEach_cons_returned in H. destruct H as [w1 [H1 H2]].
    apply onlineLine_returned in H1.
    destruct H1 as (_ & Hs & Hp & Hi & Hk & Ht & Hb).
    apply IH in H2. destruct H2 as (Hs' & Hp' & Hi' & Hk' & Ht' & Hb').
    simpl. rewrite Hs', Hp', Hi', Hk', Ht', Hb', Hs, Hp, Hi, Hk, Ht, Hb.
    rewrite <- !app_assoc. repeat split; reflexivity.
Qed.

Lemma online_loop_any l : forall w r w',
  forEach line l w = (r, w') ->
  pendingQueue w' = pendingQueue w
  /\ toastsShown (effects w') = toastsShown (effects w)
  /\ busyFlags (effects w') = busyFlags (effects w)
  /\ exists n, (n <= List.length l)%nat
       /\ stockWrites (effects w') = stockWrites (effects w) ++ map stockSent (firstn n l).
Proof.
  induction l as [|it l IH]; intros w r w' H.
  - inversion H; subst. repeat split; try reflexivity.
    exists 0%nat. simpl. rewrite app_nil_r. split; [lia | reflexivity].
  - simpl in H. unfold bind in H. destruct (line it w) as [[[]|msg] w1] eqn:H1.
    + apply onlineLine_returned in H1.
      destruct H1 as (_ & _ & Hp & _ & Hk & Ht & Hb).
      apply IH in H. destruct H as (Hp' & Ht' & Hb' & n & Hn & Hk').
      rewrite Hp', Ht', Hb', Hp, Ht, Hb. repeat split; try reflexivity.
      exists (S n). simpl. split; [lia|].
      rewrite Hk', Hk, <- app_assoc. reflexivity.
    + inversion H; subst; clear H.
      apply onlineLine_any in H1. destruct H1 as (Hp & Ht & Hb & Hk).
      repeat split; try assumption.
      destruct Hk as [Hk | Hk].
      * exists 0%nat. simpl. rewrite app_nil_r. split; [lia | assumption].
      * exists 1%nat. simpl. split; [lia | assumption].
Qed.

Lemma online_loop_customers l : forall w r w',
  paymentMethod st <> debt \/ cust = None ->
  forEach line l w = (r, w') ->
  customersTable w' = customersTable w
  /\ customerWrites (effects w') = customerWrites (effects w).
Proof.
  induction l as [|it l IH]; intros w r w' Hno H.
  - inversion H; subst. split; reflexivity.
  - simpl in H. unfold bind in H. destruct (line it w) as [[[]|msg] w1] eqn:H1;
      apply (onlineLine_customers _ _ _ _ Hno) in H1; destruct H1 as [Hc Hw].
    + apply (IH _ _ _ Hno) in H. destruct H as [Hc' Hw'].
      rewrite Hc', Hw', Hc, Hw. split; reflexivity.
    + inversion H; subst. split; assumption.
Qed.

End OnlineLine.

Section OfflineLine.
Variables (h : Hooks) (st : PageState) (u : User).
Variables (cid : option string) (cust : option Customer.t).

Local Abbreviation sale := (saleData h st u cid cust false).
Local Abbreviation line := (offlineLine h st u cid cust).

(** The offline loop always returns; it only queues. *)
Lemma offline_loop l : forall w,
  exists w',
    forEach line l w = (Returned tt, w')
    /\ pendingQueue w' = pendingQueue w ++ map sale l
    /\ salesTable w' = salesTable w
    /\ productsTable w' = productsTable w
    /\ customersTable w' = customersTable w
    /\ effects w' = effects w ++ map LocalQueueSale (map sale l).
Proof.
  induction l as [|it l IH]; intro w.
  - exists w. simpl. rewrite !app_nil_r. repeat split; reflexivity.
  - simpl. unfold bind, offlineLine at 1, createOfflineSale.
    match goal with |- context [forEach line l ?w1] => destruct (IH w1) as (w' & Hrun & Hp & Hs & Hpr & Hc & He) end.
    exists w'. rewrite Hrun, Hp, Hs, Hpr, Hc, He. simpl.
    rewrite <- !app_assoc. repeat split; reflexivity.
Qed.

End OfflineLine.

(** ** The cart (claim C9) *)

Lemma lineOf_bump pid cart :
  lineOf pid (map (bump pid) cart) = option_map (bump pid) (lineOf pid cart).
Proof.
  unfold lineOf. induction cart as [|it cart IH]; simpl; [reflexivity|].
  rewrite itemId_bump. destruct (itemId it =? pid)%string; [reflexivity | exact IH].
Qed.

Lemma lineOf_removeFromCart pid cart : lineOf pid (removeFromCart pid cart) = None.
Proof.
  unfold lineOf, removeFromCart. induction cart as [|it cart IH]; simpl; [reflexivity|].
  destruct (itemId it =? pid)%string eqn:E; simpl; [exact IH|].
  rewrite E. exact IH.
Qed.

(** C9, as the claim words it, fails: an add of a product that is out of
    stock and already in the cart, declined at the confirmation prompt,
    leaves the quantity as it was. *)
Lemma C9_declined_add_counterexample :
  ~ (forall (confirmed : bool) (p : Product) (c : Cart),
       lineOf (id p) c <> None ->
       addToCart confirmed p c = map (bump (id p)) c).
Proof.
  intro H.
  specialize (H false soap [mkCartItem soap 1]).
  assert (Hin : lineOf (id soap) [mkCartItem soap 1] <> None) by (vm_compute; discriminate).
  apply H in Hin. vm_compute in Hin. discriminate.
Qed.

(** C9 (amended).  In every cart that the handlers can produce, product ids
    are pairwise distinct and every quantity is positive.  [addToCart] does
    nothing when the product's stock is 0 and the user declines the prompt;
    otherwise it adds 1 to the line of a product already in the cart,
    without changing the number of lines, and appends a line with quantity
    1 for a new product.  [updateQuantity] with a quantity <= 0 removes the
    line. *)
Theorem C9_cart_lines_unique_and_positive :
  forall (acts : list CartAction) (confirmed : bool) (p : Product)
         (pid : string) (q : Z),
    let c := cartAfter acts in
    cartOk c
    /\ (currentStock p = 0 -> confirmed = false -> addToCart confirmed p c = c)
    /\ (currentStock p <> 0 \/ confirmed = true ->
        forall it, lineOf (id p) c = Some it ->
          addToCart confirmed p c = map (bump (id p)) c
          /\ lineOf (id p) (addToCart confirmed p c)
             = Some (mkCartItem (product it) (quantity it + 1))
          /\ List.length (addToCart confirmed p c) = List.length c)
    /\ (currentStock p <> 0 \/ confirmed = true ->
        lineOf (id p) c = None ->
          addToCart confirmed p c = c ++ [mkCartItem p 1])
    /\ (q <= 0 ->
        updateQuantity pid q c = removeFromCart pid c
        /\ lineOf pid (updateQuantity pid q c) = None).
Proof.
  intros acts confirmed p pid q c.
  assert (Hgo : currentStock p <> 0 \/ confirmed = true ->
                (currentStock p =? 0) && negb confirmed = false).
  { intros [Hs | Hc].
    - apply Z.eqb_neq in Hs. now rewrite Hs.
    - rewrite Hc. apply andb_false_r. }
  split; [apply cartOk_cartAfter|].
  split; [|split; [|split]].
  - intros Hs Hc. unfold addToCart. rewrite Hs, Hc. reflexivity.
  - intros Hp it Hit. unfold addToCart. rewrite (Hgo Hp).
    fold (lineOf (id p) c). rewrite Hit.
    split; [reflexivity|]. split; [|apply length_map].
    rewrite lineOf_bump, Hit. simpl. unfold bump.
    destruct (lineOf_Some_in _ _ _ Hit) as [_ Hid].
    rewrite Hid, String.eqb_refl. reflexivity.
  - intros Hp Hnone. unfold addToCart. rewrite (Hgo Hp).
    fold (lineOf (id p) c). rewrite Hnone. reflexivity.
  - intro Hq. apply Z.leb_le in Hq. unfold updateQuantity. rewrite Hq.
    split; [reflexivity | apply lineOf_removeFromCart].
Qed.

(** C9 on a run: two adds of [maize] and one of [soap] (confirmed although
    out of stock) give two lines; lowering [soap] to 0 removes its line. *)
Lemma C9_cart_lines_unique_and_positive_witness :
  let acts := [AddToCart false maize; AddToCart true soap; AddToCart false maize] in
  cartAfter acts = [mkCartItem maize 2; mkCartItem soap 1]
  /\ cartOk (cartAfter acts)
  /\ addToCart false maize (cartAfter acts) = [mkCartItem maize 3; mkCartItem soap 1]
  /\ updateQuantity "p2" 0 (cartAfter acts) = removeFromCart "p2" (cartAfter acts).
Proof.
  intro acts.
  pose proof (C9_cart_lines_unique_and_positive acts false maize "p2" 0) as H.
  cbv zeta in H. destruct H as (Hok & _ & Hbump & _ & Hupd).
  assert (Hgo : currentStock maize <> 0 \/ false = true) by (left; discriminate).
  assert (Hline : lineOf (id maize) (cartAfter acts) = Some (mkCartItem maize 2))
    by reflexivity.
  destruct (Hbump Hgo _ Hline) as (Heq & _ & _).
  split; [reflexivity|]. split; [exact Hok|]. split.
  - rewrite Heq. reflexivity.
  - apply Hupd. lia.
Defined.

(** ** The checkout *)

Lemma handleCheckout_started be h st w :
  cart st <> [] -> customerMissing st = false ->
  handleCheckout be h st w
  = match processCart be h st (emit (SetProcessing true) w) with
    | (Returned _, w1) =>
        (Completed, mkPageState [] None cash false,
         emit (SetProcessing false)
              (emit (ShowToast (ToastSaleCompleted (negb (isOnline h)))) w1))
    | (Thrown msg, w1) =>
        (Failed,
         mkPageState (cart st) (selectedCustomerId st) (paymentMethod st) false,
         emit (SetProcessing false)
              (emit (ShowToast ToastError) (emit (ConsoleError msg) w1)))
    end.
Proof.
  intros Hc Hv. unfold handleCheckout. rewrite Hv.
  destruct (cart st); [now elim Hc | reflexivity].
Qed.

(** A checkout that completes was not refused, ran for a signed-in user,
    and its loop returned. *)
Lemma handleCheckout_completed be h st w st' w' :
  handleCheckout be h st w = (Completed, st', w') ->
  cart st <> [] /\ customerMissing st = false
  /\ st' = mkPageState [] None cash false
  /\ exists u w1,
       user h = Some u
       /\ processCart be h st (emit (SetProcessing true) w) = (Returned tt, w1)
       /\ w' = emit (SetProcessing false)
                    (emit (ShowToast (ToastSaleCompleted (negb (isOnline h)))) w1).
Proof.
  unfold handleCheckout. destruct (cart st) as [|it rest] eqn:Hcart; [discriminate|].
  destruct (customerMissing st); [discriminate|].
  destruct (processCart be h st (emit (SetProcessing true) w)) as [[[]|msg] w1] eqn:Hrun;
    [|discriminate].
  intro H. inversion H; subst; clear H.
  split; [discriminate|]. split; [reflexivity|]. split; [reflexivity|].
  unfold processCart, processOnlineSale, processOfflineSale in Hrun.
  destruct (user h) as [u|].
  - exists u, w1. repeat split.
  - unfold throw in Hrun. destruct (isOnline h); discriminate.
Qed.

Lemma saleData_rowOfLine h st u cid cust b it :
  rowOfLine it (saleData h st u cid cust b it).
Proof. repeat split. Qed.

Lemma rows_of_lines h st u cid cust b (l : Cart) :
  Forall2 rowOfLine l (map (saleData h st u cid cust b) l).
Proof.
  induction l as [|it l IH]; simpl; constructor; [apply saleData_rowOfLine | exact IH].
Qed.

(** C1.  A successful checkout of a non-empty cart with a payment method
    other than debt creates one sale row per cart line, in cart order: |C|
    rows, appended to the remote [sales] table when online and to the
    pending queue when offline.  Each row takes its quantity and prices from
    its line, with [total_amount = sellingPrice * quantity] and
    [profit = (sellingPrice - costPrice) * quantity]. *)
Theorem C1_one_sale_row_per_cart_line be h st w st' w' :
  cart st <> [] ->
  paymentMethod st <> debt ->
  handleCheckout be h st w = (Completed, st', w') ->
  exists rows,
    List.length rows = List.length (cart st)
    /\ Forall2 rowOfLine (cart st) rows
    /\ (if isOnline h
        then salesTable w' = salesTable w ++ rows /\ pendingQueue w' = pendingQueue w
        else pendingQueue w' = pendingQueue w ++ rows /\ salesTable w' = salesTable w).
Proof.
  intros _ _ H. apply handleCheckout_completed in H.
  destruct H as (_ & _ & _ & u & w1 & Hu & Hrun & ->).
  exists (map (saleData h st u (selectedCustomerId st) (findCustomer h st) (isOnline h))
              (cart st)).
  split; [apply length_map|]. split; [apply rows_of_lines|].
  unfold processCart, processOnlineSale, processOfflineSale in Hrun. rewrite Hu in Hrun.
  destruct (isOnline h).
  - apply online_loop_returned in Hrun. destruct Hrun as (Hs & Hp & _).
    simpl in *. split; assumption.
  - destruct (offline_loop h st u (selectedCustomerId st) (findCustomer h st) (cart st)
                (emit (SetProcessing true) w)) as (w2 & Hrun' & Hp & Hs & _).
    rewrite Hrun in Hrun'. inversion Hrun'; subst w2.
    simpl in *. split; assumption.
Qed.

(** C1 on a run: a cash sale of two lines, online. *)
Lemma C1_one_sale_row_per_cart_line_witness :
  let st := mkPageState twoLines None cash false in
  exists rows,
    List.length rows = 2%nat
    /\ Forall2 rowOfLine twoLines rows
    /\ salesTable (worldAfter (handleCheckout reliable (hooksAt true) st shop))
       = salesTable shop ++ rows.
Proof.
  intro st.
  destruct (C1_one_sale_row_per_cart_line reliable (hooksAt true) st shop
              (pageAfter (handleCheckout reliable (hooksAt true) st shop))
              (worldAfter (handleCheckout reliable (hooksAt true) st shop)))
    as (rows & Hlen & Hrows & Htab & _).
  - discriminate.
  - discriminate.
  - reflexivity.
  - exists rows. repeat split; assumption.
Defined.

(** C2.  With a non-empty cart, payment method debt and no customer
    selected, [handleCheckout] is refused: it shows the "Customer Required"
    toast and nothing else happens.  No sale row is created remotely or
    queued, the busy flag is never raised, and the page state (cart,
    selection, payment method) is the one it started from. *)
Theorem C2_debt_without_customer_is_refused be h st w :
  cart st <> [] ->
  paymentMethod st = debt ->
  truthy (selectedCustomerId st) = false ->
  exists w',
    handleCheckout be h st w = (Rejected, st, w')
    /\ salesTable w' = salesTable w
    /\ pendingQueue w' = pendingQueue w
    /\ productsTable w' = productsTable w
    /\ customersTable w' = customersTable w
    /\ effects w' = effects w ++ [ShowToast ToastCustomerRequired].
Proof.
  intros Hc Hpm Hsel. exists (emit (ShowToast ToastCustomerRequired) w).
  unfold handleCheckout, customerMissing. rewrite Hpm, Hsel. simpl.
  destruct (cart st); [now elim Hc|]. repeat split.
Qed.

(** C2 on a run: a debt sale of two lines with nobody selected. *)
Lemma C2_debt_without_customer_is_refused_witness :
  let st := mkPageState twoLines None debt false in
  exists w',
    handleCheckout reliable (hooksAt true) st shop = (Rejected, st, w')
    /\ salesTable w' = [] /\ pendingQueue w' = []
    /\ effects w' = [ShowToast ToastCustomerRequired].
Proof.
  intro st.
  destruct (C2_debt_without_customer_is_refused reliable (hooksAt true) st shop)
    as (w' & Hrun & Hs & Hp & _ & _ & He).
  - discriminate.
  - reflexivity.
  - reflexivity.
  - exists w'. repeat split; assumption.
Defined.

Lemma queueing_is_local (l : list Sale.t) :
  filter isRemoteCall (map LocalQueueSale l) = [].
Proof. induction l; simpl; [reflexivity | assumption]. Qed.

(** What an offline checkout does, whatever its outcome: it never calls the
    service, and it completes exactly when a user is signed in and the
    validation passes. *)
Lemma offline_checkout be h st w :
  cart st <> [] -> isOnline h = false ->
  let r := handleCheckout be h st w in
  salesTable (worldAfter r) = salesTable w
  /\ productsTable (worldAfter r) = productsTable w
  /\ customersTable (worldAfter r) = customersTable w
  /\ remoteCalls (effects (worldAfter r)) = remoteCalls (effects w)
  /\ (outcomeOf r = Completed <-> user h <> None /\ customerMissing st = false).
Proof.
  intros Hc Hoff r. subst r. unfold handleCheckout.
  destruct (cart st) as [|it rest] eqn:Hcart; [now elim Hc|].
  destruct (customerMissing st) eqn:Hv.
  - unfold worldAfter, outcomeOf. simpl. log_simpl.
    do 4 (split; [reflexivity|]).
    split; [discriminate | intros [_ Hx]; discriminate].
  - unfold processCart, processOfflineSale. rewrite Hoff.
    destruct (user h) as [u|].
    + destruct (offline_loop h st u (selectedCustomerId st) (findCustomer h st) (cart st)
                  (emit (SetProcessing true) w)) as (w2 & Hrun & _ & Hs & Hp & Hcu & He).
      rewrite Hrun. unfold worldAfter, outcomeOf. simpl.
      rewrite Hs, Hp, Hcu, He. unfold remoteCalls. simpl.
      rewrite !filter_app, queueing_is_local. simpl. rewrite !app_nil_r.
      do 4 (split; [reflexivity|]).
      split; [intros _; split; [discriminate | reflexivity] | reflexivity].
    + unfold throw, worldAfter, outcomeOf. simpl. log_simpl.
      do 4 (split; [reflexivity|]).
      split; [discriminate | intros [Hx _]; now elim Hx].
Qed.

(** C3.  A non-empty cart checked out while offline: the checkout queues
    one sale row per cart line, in cart order, each with [synced = false];
    the rows are appended to the pending queue, so the pending-operation
    count grows by exactly |C|; and no remote write is attempted: the remote
    tables are as before and the log holds no new call to the service. *)
Theorem C3_offline_checkout_queues_every_line be h st w st' w' :
  cart st <> [] ->
  isOnline h = false ->
  handleCheckout be h st w = (Completed, st', w') ->
  exists rows,
    List.length rows = List.length (cart st)
    /\ Forall2 rowOfLine (cart st) rows
    /\ Forall (fun r => Sale.synced r = false) rows
    /\ pendingQueue w' = pendingQueue w ++ rows
    /\ pendingOperations w' = (pendingOperations w + List.length (cart st))%nat
    /\ salesTable w' = salesTable w
    /\ productsTable w' = productsTable w
    /\ customersTable w' = customersTable w
    /\ remoteCalls (effects w') = remoteCalls (effects w).
Proof.
  intros Hc Hoff H.
  pose proof (offline_checkout be h st w Hc Hoff) as Hoffl. cbv zeta in Hoffl.
  rewrite H in Hoffl. unfold worldAfter in Hoffl. simpl in Hoffl.
  destruct Hoffl as (Hs & Hp & Hcu & Hr & _).
  apply handleCheckout_completed in H.
  destruct H as (_ & _ & _ & u & w1 & Hu & Hrun & ->).
  unfold processCart, processOfflineSale in Hrun. rewrite Hoff, Hu in Hrun.
  destruct (offline_loop h st u (selectedCustomerId st) (findCustomer h st) (cart st)
              (emit (SetProcessing true) w)) as (w2 & Hrun' & Hq & _).
  rewrite Hrun in Hrun'. inversion Hrun'; subst w2. clear Hrun'.
  exists (map (saleData h st u (selectedCustomerId st) (findCustomer h st) false) (cart st)).
  split; [apply length_map|]. split; [apply rows_of_lines|].
  split; [apply Forall_map, Forall_forall; reflexivity|].
  split; [simpl in *; exact Hq|].
  split; [unfold pendingOperations; simpl in *; rewrite Hq, length_app, length_map; reflexivity|].
  repeat split; assumption.
Qed.

(** C3 on a run: a cash sale of two lines, offline, by a signed-in user. *)
Lemma C3_offline_checkout_queues_every_line_witness :
  let st := mkPageState twoLines None cash false in
  let r := handleCheckout reliable (hooksAt false) st shop in
  exists rows,
    List.length rows = 2%nat
    /\ Forall (fun s => Sale.synced s = false) rows
    /\ pendingQueue (worldAfter r) = rows
    /\ pendingOperations (worldAfter r) = 2%nat
    /\ remoteCalls (effects (worldAfter r)) = [].
Proof.
  intros st r.
  destruct (C3_offline_checkout_queues_every_line reliable (hooksAt false) st shop
              (pageAfter r) (worldAfter r))
    as (rows & Hlen & _ & Hsync & Hq & Hn & _ & _ & _ & Hr).
  - discriminate.
  - reflexivity.
  - reflexivity.
  - exists rows. repeat split; assumption.
Defined.

(** C4.  An online checkout in which the insert of the sale row of line k
    is rejected (the lines before it, [pre], having been processed): the
    rows of [pre] stay in the [sales] table, each with [synced = true];
    the inserts attempted are those of [pre] and of line k and no more, and
    stock is sent for [pre] only, so the lines after k are never attempted;
    the checkout fails with exactly one toast, the generic error; the cart
    is kept. *)
Theorem C4_rejected_insert_aborts_without_rollback
    be h st w u pre it post w1 msg :
  isOnline h = true ->
  user h = Some u ->
  customerMissing st = false ->
  cart st = pre ++ it :: post ->
  forEach (onlineLine be h st u (selectedCustomerId st) (findCustomer h st)) pre
          (emit (SetProcessing true) w) = (Returned tt, w1) ->
  saleInsertError be w1
    (saleData h st u (selectedCustomerId st) (findCustomer h st) true it) = Some msg ->
  let rows := map (saleData h st u (selectedCustomerId st) (findCustomer h st) true) in
  exists st' w',
    handleCheckout be h st w = (Failed, st', w')
    /\ salesTable w' = salesTable w ++ rows pre
    /\ Forall (fun r => Sale.synced r = true) (rows pre)
    /\ insertAttempts (effects w') = insertAttempts (effects w) ++ rows (pre ++ [it])
    /\ stockWrites (effects w') = stockWrites (effects w) ++ map stockSent pre
    /\ toastsShown (effects w') = toastsShown (effects w) ++ [ToastError]
    /\ cart st' = cart st.
Proof.
  intros Hon Hu Hv Hcart Hpre Hrej rows.
  assert (Hne : cart st <> []) by (rewrite Hcart; destruct pre; discriminate).
  rewrite (handleCheckout_started be h st w Hne Hv).
  unfold processCart, processOnlineSale. rewrite Hon, Hu, Hcart.
  rewrite forEach_app, Hpre. simpl. unfold bind.
  destruct (onlineLine_rejected be h st u (selectedCustomerId st) (findCustomer h st)
              it w1 msg Hrej) as [m Hline].
  rewrite Hline.
  apply online_loop_returned in Hpre.
  destruct Hpre as (Hs & _ & Hi & Hk & Ht & _).
  do 2 eexists. split; [reflexivity|].
  subst rows. log_simpl. rewrite Hs, Hi, Hk, Ht. log_simpl.
  rewrite map_app, <- !app_assoc. simpl.
  repeat split; try reflexivity.
  apply Forall_map, Forall_forall. reflexivity.
Qed.

(** C4 on a run: the service rejects the row of [soap], the second of two
    lines; the row of [maize] stays. *)
Lemma C4_rejected_insert_aborts_without_rollback_witness :
  let st := mkPageState twoLines None cash false in
  let r := handleCheckout rejectsSoap (hooksAt true) st shop in
  outcomeOf r = Failed
  /\ map Sale.product_id (salesTable (worldAfter r)) = ["p1"%string]
  /\ map Sale.synced (salesTable (worldAfter r)) = [true]
  /\ toastsShown (effects (worldAfter r)) = [ToastError]
  /\ cart (pageAfter r) = twoLines.
Proof.
  intros st r.
  destruct (C4_rejected_insert_aborts_without_rollback rejectsSoap (hooksAt true) st shop
              cashier [mkCartItem maize 2] (mkCartItem soap 1) []
              (snd (onlineLine rejectsSoap (hooksAt true) st cashier None None
                      (mkCartItem maize 2) (emit (SetProcessing true) shop)))
              "new row violates row-level security policy")
    as (st' & w' & Hrun & Hs & _ & _ & _ & Ht & Hc);
    try reflexivity.
  subst r. rewrite Hrun. unfold outcomeOf, worldAfter, pageAfter. simpl.
  rewrite Hs, Ht, Hc. repeat split.
Defined.

(** ** Stock decrement (claim C8) *)

(** An accepted stock update leaves the value it sent in every product row
    of that id. *)
Lemma updateStock_accepted be pid v w w' :
  updateStock be pid v w = (Returned None, w') ->
  Forall (fun p => id p = pid -> currentStock p = v) (productsTable w').
Proof.
  unfold updateStock. destruct (stockUpdateError be w pid v); [discriminate|].
  intro H. inversion H; subst; clear H. simpl.
  apply Forall_map, Forall_forall. intros p _ Hid. unfold patchStock in *.
  destruct (id p =? pid)%string eqn:E; [reflexivity|].
  simpl in Hid. apply String.eqb_neq in E. contradiction.
Qed.

Lemma stockSent_nonneg (l : Cart) : Forall (fun pv => 0 <= snd pv) (map stockSent l).
Proof.
  apply Forall_map, Forall_forall. intros it _. unfold stockSent. simpl. lia.
Qed.


Lemma queueing_writes_no_customer (l : list Sale.t) :
  flat_map (fun e => match e with
                     | RemoteUpdateCustomer cid d t _ _ => [(cid, d, t)]
                     | _ => []
                     end)
           (map LocalQueueSale l) = [].
Proof. induction l; simpl; [reflexivity | assumption]. Qed.



(** *** What the checkout does to the products table *)








Section StockOfLine.
Variables (be : Remote) (h : Hooks) (st : PageState) (u : User).
Variables (cid : option string) (cust : option Customer.t).

Local Abbreviation line := (onlineLine be h st u cid cust).



Hypothesis stock_accepted : forall w pid v, stockUpdateError be w pid v = None.



End StockOfLine.





(** ** Customer accounts (claim C7) *)

(** X17.  Unless the payment method is debt and the selected customer is known,
    a checkout writes no customer row. *)
Lemma customers_untouched_without_debt be h st w :
  paymentMethod st <> debt \/ findCustomer h st = None ->
  let r := handleCheckout be h st w in
  customersTable (worldAfter r) = customersTable w
  /\ customerWrites (effects (worldAfter r)) = customerWrites (effects w).
Proof.
  intros Hno r. subst r. unfold handleCheckout.
  destruct (cart st) as [|it0 rest] eqn:Hcart; [split; reflexivity|].
  rewrite <- Hcart. destruct (customerMissing st).
  - unfold worldAfter. simpl. log_simpl. split; reflexivity.
  - unfold processCart, processOnlineSale, processOfflineSale.
    destruct (isOnline h); destruct (user h) as [u|];
      try (unfold throw, worldAfter; simpl; log_simpl; split; reflexivity).
    + destruct (forEach (onlineLine be h st u (selectedCustomerId st) (findCustomer h st))
                  (cart st) (emit (SetProcessing true) w)) as [c w1] eqn:Hrun.
      apply (online_loop_customers _ _ _ _ _ _ _ _ _ _ Hno) in Hrun.
      destruct Hrun as [Hc Hw].
      destruct c as [[]|msg]; unfold worldAfter; simpl; log_simpl;
        rewrite Hc, Hw; log_simpl; split; reflexivity.
    + destruct (offline_loop h st u (selectedCustomerId st) (findCustomer h st) (cart st)
                  (emit (SetProcessing true) w)) as (w2 & Hrun & _ & _ & _ & Hc & He).
      rewrite Hrun. unfold worldAfter. simpl. rewrite Hc.
      unfold customerWrites. simpl. rewrite He.
      rewrite !flat_map_app, queueing_writes_no_customer. simpl.
      rewrite !flat_map_app. simpl. rewrite !app_nil_r.
      split; reflexivity.
Qed.

(** Every customer write of one online line carries the debt and the
    purchases of the customer record that [handleCheckout] looked up before
    the loop, plus the line total. *)
Lemma onlineLine_customer_write be h st u cid c it w r w' :
  paymentMethod st = debt ->
  onlineLine be h st u cid (Some c) it w = (r, w') ->
  customerWrites (effects w') = customerWrites (effects w)
  \/ customerWrites (effects w')
     = customerWrites (effects w)
       ++ [(Customer.id c, Customer.outstandingDebt c + lineTotal it,
            Customer.totalPurchases c + lineTotal it)].
Proof.
  intros Hpm H. unfold onlineLine, lineTotal in *. rewrite Hpm in H.
  run_task; log_simpl; auto.
Qed.

(** C7 at a debt sale of two lines (totals 100 and 50) to a customer who
    owes nothing: both writes start from the record read before the loop,
    so the second overwrites the first and the customer ends with a debt of
    50 and purchases of 50, where the two line totals add up to 150. *)
Theorem C7_debt_sale_of_two_lines_keeps_last_total :
  let st := mkPageState [mkCartItem maize 1; mkCartItem soap 1] (Some "c1"%string) debt false in
  let r := handleCheckout reliable (hooksAt true) st shop in
  outcomeOf r = Completed
  /\ map lineTotal (cart st) = [100; 50]
  /\ customerWrites (effects (worldAfter r))
     = [("c1"%string, 100, 100); ("c1"%string, 50, 50)]
  /\ map Customer.outstandingDebt (customersTable (worldAfter r)) = [50]
  /\ map Customer.totalPurchases (customersTable (worldAfter r)) = [50].
Proof. vm_compute. repeat split. Qed.

(** ** More on the cart *)

Lemma map_bump_absent pid cart :
  ~ In pid (map itemId cart) -> map (bump pid) cart = cart.
Proof.
  induction cart as [|it cart IH]; simpl; intro H; [reflexivity|].
  unfold bump at 1. destruct (itemId it =? pid)%string eqn:E.
  - apply String.eqb_eq in E. elim H. now left.
  - rewrite IH; [reflexivity|]. intro Hin. apply H. now right.
Qed.

Lemma map_setQty_absent pid q cart :
  ~ In pid (map itemId cart) -> map (setQty pid q) cart = cart.
Proof.
  induction cart as [|it cart IH]; simpl; intro H; [reflexivity|].
  unfold setQty at 1. destruct (itemId it =? pid)%string eqn:E.
  - apply String.eqb_eq in E. elim H. now left.
  - rewrite IH; [reflexivity|]. intro Hin. apply H. now right.
Qed.

Lemma removeFromCart_absent pid cart :
  ~ In pid (map itemId cart) -> removeFromCart pid cart = cart.
Proof.
  unfold removeFromCart. induction cart as [|it cart IH]; simpl; intro H; [reflexivity|].
  destruct (itemId it =? pid)%string eqn:E; simpl.
  - apply String.eqb_eq in E. elim H. now left.
  - rewrite IH; [reflexivity|]. intro Hin. apply H. now right.
Qed.

(** In a cart without duplicate ids, a cart with a line for [pid] splits
    around that line, and no other line has that id. *)
Lemma cart_split pid cart it :
  NoDup (map itemId cart) -> lineOf pid cart = Some it ->
  exists before after,
    cart = before ++ it :: after
    /\ itemId it = pid
    /\ ~ In pid (map itemId before)
    /\ ~ In pid (map itemId after).
Proof.
  unfold lineOf. induction cart as [|x cart IH]; simpl; intros Hnd Hl; [discriminate|].
  inversion Hnd as [|k ks Hk Hks]; subst.
  destruct (itemId x =? pid)%string eqn:E.
  - inversion Hl; subst x. apply String.eqb_eq in E.
    exists [], cart. repeat split; try assumption; try (intros []).
    now rewrite <- E.
  - destruct (IH Hks Hl) as (before & after & -> & Hid & Hb & Ha).
    exists (x :: before), after. repeat split; try assumption.
    simpl. intros [Hx | Hin]; [|now apply Hb].
    apply String.eqb_neq in E. contradiction.
Qed.

Lemma bump_line pid it : itemId it = pid -> bump pid it = mkCartItem (product it) (quantity it + 1).
Proof. intro H. unfold bump. now rewrite H, String.eqb_refl. Qed.

Lemma setQty_line pid q it : itemId it = pid -> setQty pid q it = mkCartItem (product it) q.
Proof. intro H. unfold setQty. now rewrite H, String.eqb_refl. Qed.

(** X2.  [removeFromCart] in a cart without duplicate ids: it takes out
    the line of that product and nothing else - one line fewer, every other
    product's line as it was - and it leaves the cart as it is when the
    product has no line. *)
Theorem removeFromCart_exact pid cart :
  NoDup (map itemId cart) ->
  match lineOf pid cart with
  | Some it =>
      S (List.length (removeFromCart pid cart)) = List.length cart
      /\ exists before after,
           cart = before ++ it :: after /\ removeFromCart pid cart = before ++ after
  | None => removeFromCart pid cart = cart
  end
  /\ lineOf pid (removeFromCart pid cart) = None
  /\ forall other, other <> pid ->
       lineOf other (removeFromCart pid cart) = lineOf other cart.
Proof.
  intro Hnd. split; [|split].
  - destruct (lineOf pid cart) as [it|] eqn:Hl.
    + destruct (cart_split _ _ _ Hnd Hl) as (before & after & -> & Hid & Hb & Ha).
      assert (Hrm : removeFromCart pid (before ++ it :: after) = before ++ after).
      { unfold removeFromCart. rewrite filter_app. simpl.
        rewrite Hid, String.eqb_refl. simpl.
        fold (removeFromCart pid before). fold (removeFromCart pid after).
        now rewrite (removeFromCart_absent _ _ Hb), (removeFromCart_absent _ _ Ha). }
      split.
      * rewrite Hrm, !length_app. simpl. lia.
      * exists before, after. split; [reflexivity | exact Hrm].
    + apply removeFromCart_absent. now apply lineOf_None_notin.
  - apply lineOf_removeFromCart.
  - intros other Hne. unfold lineOf, removeFromCart.
    induction cart as [|x cart IH]; simpl; [reflexivity|].
    inversion Hnd as [|k ks Hk Hks]; subst.
    destruct (itemId x =? pid)%string eqn:E; simpl.
    + apply String.eqb_eq in E.
      destruct (itemId x =? other)%string eqn:E'.
      * apply String.eqb_eq in E'. congruence.
      * now apply IH.
    + destruct (itemId x =? other)%string; [reflexivity | now apply IH].
Qed.

Lemma removeFromCart_exact_witness :
  removeFromCart "p1" twoLines = [mkCartItem soap 1]
  /\ S (List.length (removeFromCart "p1" twoLines)) = List.length twoLines
  /\ removeFromCart "p9" twoLines = twoLines.
Proof.
  assert (Hnd : NoDup (map itemId twoLines)).
  { repeat constructor; simpl; intuition discriminate. }
  pose proof (removeFromCart_exact "p1" twoLines Hnd) as [H1 _].
  pose proof (removeFromCart_exact "p9" twoLines Hnd) as [H9 _].
  simpl lineOf in H1, H9. destruct H1 as [Hlen _].
  split; [reflexivity|]. split; [exact Hlen | exact H9].
Defined.

(** X3.  [updateQuantity] with a positive quantity: the line of that
    product gets the new quantity, the lines keep their products, their
    order and their number, every other product's line is as it was, and a
    product without a line leaves the cart as it is. *)
Theorem updateQuantity_positive pid q cart :
  0 < q ->
  map product (updateQuantity pid q cart) = map product cart
  /\ lineOf pid (updateQuantity pid q cart)
     = option_map (fun it => mkCartItem (product it) q) (lineOf pid cart)
  /\ (forall other, other <> pid ->
        lineOf other (updateQuantity pid q cart) = lineOf other cart)
  /\ (lineOf pid cart = None -> updateQuantity pid q cart = cart).
Proof.
  intros Hq. unfold updateQuantity.
  assert (Hle : (q <=? 0) = false) by (apply Z.leb_gt; lia). rewrite Hle.
  split; [|split; [|split]].
  - rewrite map_map. apply map_ext. intro it. unfold setQty.
    destruct (itemId it =? pid)%string; reflexivity.
  - unfold lineOf. induction cart as [|x cart IH]; simpl; [reflexivity|].
    rewrite itemId_setQty. destruct (itemId x =? pid)%string eqn:E; [|exact IH].
    simpl. unfold setQty. now rewrite E.
  - intros other Hne. unfold lineOf.
    induction cart as [|x cart IH]; simpl; [reflexivity|].
    rewrite itemId_setQty. destruct (itemId x =? other)%string eqn:E; [|exact IH].
    unfold setQty. destruct (itemId x =? pid)%string eqn:E'; [|reflexivity].
    apply String.eqb_eq in E, E'. congruence.
  - intro Hl. apply map_setQty_absent. now apply lineOf_None_notin.
Qed.

Lemma updateQuantity_positive_witness :
  updateQuantity "p1" 5 twoLines = [mkCartItem maize 5; mkCartItem soap 1]
  /\ lineOf "p1" (updateQuantity "p1" 5 twoLines) = Some (mkCartItem maize 5)
  /\ updateQuantity "p9" 5 twoLines = twoLines.
Proof.
  destruct (updateQuantity_positive "p1" 5 twoLines ltac:(lia)) as (_ & Hl & _ & _).
  destruct (updateQuantity_positive "p9" 5 twoLines ltac:(lia)) as (_ & _ & _ & H9).
  split; [reflexivity|]. split; [exact Hl | apply H9; reflexivity].
Defined.

(** X4.  The buttons of a cart line, in a cart without duplicate ids:
    adding a product that has a line (the add not being declined) does what
    the plus button of that line does; plus followed by minus gives the
    cart back; and the minus button never removes a line. *)
Theorem line_buttons cart it :
  NoDup (map itemId cart) ->
  Forall (fun x => 0 < quantity x) cart ->
  lineOf (itemId it) cart = Some it ->
  (forall confirmed p,
      id p = itemId it -> asksConfirmation p && negb confirmed = false ->
      addToCart confirmed p cart = pressPlus it cart)
  /\ pressMinus (mkCartItem (product it) (quantity it + 1)) (pressPlus it cart) = cart
  /\ map itemId (pressMinus it cart) = map itemId cart.
Proof.
  intros Hnd Hpos Hl.
  destruct (cart_split _ _ _ Hnd Hl) as (before & after & Hcart & _ & Hb & Ha).
  assert (Hq : 0 < quantity it).
  { rewrite Forall_forall in Hpos. apply Hpos. rewrite Hcart. apply in_elt. }
  assert (Hplus : pressPlus it cart
                  = before ++ mkCartItem (product it) (quantity it + 1) :: after).
  { unfold pressPlus, updateQuantity.
    replace (quantity it + 1 <=? 0) with false by (symmetry; apply Z.leb_gt; lia).
    rewrite Hcart, map_app. simpl.
    rewrite (map_setQty_absent _ _ _ Hb), (map_setQty_absent _ _ _ Ha).
    now rewrite setQty_line. }
  split; [|split].
  - intros confirmed p Hid Hgo. rewrite Hplus.
    unfold addToCart, asksConfirmation in *. rewrite Hgo.
    fold (lineOf (id p) cart). rewrite Hid, Hl.
    rewrite Hcart, map_app. simpl.
    rewrite (map_bump_absent _ _ Hb), (map_bump_absent _ _ Ha).
    now rewrite bump_line.
  - rewrite Hplus. unfold pressMinus, updateQuantity. simpl quantity.
    replace (quantity it + 1 <=? 1) with false by (symmetry; apply Z.leb_gt; lia).
    replace (quantity it + 1 - 1) with (quantity it) by lia.
    replace (quantity it <=? 0) with false by (symmetry; apply Z.leb_gt; lia).
    change (itemId (mkCartItem (product it) (quantity it + 1))) with (itemId it).
    rewrite map_app. simpl.
    rewrite (map_setQty_absent _ _ _ Hb), (map_setQty_absent _ _ _ Ha).
    rewrite setQty_line by reflexivity. simpl. rewrite Hcart. now destruct it.
  - unfold pressMinus. destruct (quantity it <=? 1) eqn:E; [reflexivity|].
    apply Z.leb_gt in E. unfold updateQuantity.
    replace (quantity it - 1 <=? 0) with false by (symmetry; apply Z.leb_gt; lia).
    apply map_itemId_setQty.
Qed.

Lemma line_buttons_witness :
  addToCart false maize twoLines = pressPlus (mkCartItem maize 2) twoLines
  /\ pressMinus (mkCartItem maize 3) (pressPlus (mkCartItem maize 2) twoLines) = twoLines
  /\ pressMinus (mkCartItem soap 1) twoLines = twoLines.
Proof.
  assert (Hnd : NoDup (map itemId twoLines)).
  { repeat constructor; simpl; intuition discriminate. }
  assert (Hpos : Forall (fun x => 0 < quantity x) twoLines) by (repeat constructor).
  destruct (line_buttons twoLines (mkCartItem maize 2) Hnd Hpos eq_refl) as (Hadd & Hround & _).
  split; [apply Hadd; reflexivity|]. split; [exact Hround | reflexivity].
Defined.

(** ** Search and stock display *)

Lemma prefix_nil s : String.prefix "" s = true.
Proof. destruct s; reflexivity. Qed.

Lemma prefix_refl s : String.prefix s s = true.
Proof.
  induction s as [|c s IH]; simpl; [reflexivity|].
  destruct (ascii_dec c c) as [_|n]; [exact IH | now elim n].
Qed.

Lemma includes_nil s : includes s "" = true.
Proof. destruct s; simpl; reflexivity. Qed.

Lemma includes_refl s : includes s s = true.
Proof.
  destruct s as [|c s]; [reflexivity|].
  change (includes (String c s) (String c s))
    with (String.prefix (String c s) (String c s) || includes s (String c s)).
  now rewrite prefix_refl.
Qed.

(** X5.  The product search: it lists only products of the catalogue,
    never more of them than there are; with an empty search term (or any
    term that lower-cases to the empty string) it lists every product; and
    a product whose name or category is the search term is always listed. *)
Theorem filteredProducts_search toLowerCase products searchTerm :
  (forall p, In p (filteredProducts toLowerCase products searchTerm) -> In p products)
  /\ (List.length (filteredProducts toLowerCase products searchTerm)
      <= List.length products)%nat
  /\ (toLowerCase searchTerm = ""%string ->
      filteredProducts toLowerCase products searchTerm = products)
  /\ (forall p, In p products ->
        name p = searchTerm \/ category p = searchTerm ->
        In p (filteredProducts toLowerCase products searchTerm)).
Proof.
  unfold filteredProducts. split; [|split; [|split]].
  - intros p Hin. apply filter_In in Hin. tauto.
  - apply filter_length_le.
  - intros ->. apply forallb_filter_id. apply forallb_forall.
    intros p _. now rewrite includes_nil.
  - intros p Hin Hp. apply filter_In. split; [exact Hin|].
    destruct Hp as [<- | <-]; rewrite includes_refl; [reflexivity | apply orb_true_r].
Qed.

Lemma filteredProducts_search_witness :
  filteredProducts asciiLower [maize; soap] "" = [maize; soap]
  /\ filteredProducts asciiLower [maize; soap] "FOOD" = [maize].
Proof.
  destruct (filteredProducts_search asciiLower [maize; soap] "") as (_ & _ & Hall & _).
  split; [apply Hall; reflexivity | reflexivity].
Defined.

Lemma numberToString_parses n :
  NilZero.int_of_string (numberToString n) <> None.
Proof.
  unfold numberToString. destruct n as [|p|p].
  - discriminate.
  - change (Z.to_int (Z.pos p)) with (Decimal.Pos (Pos.to_uint p)).
    rewrite NilZero.isi; [discriminate | |discriminate].
    intro H. inversion H as [H']. now apply (DecimalPos.Unsigned.to_uint_nonnil p).
  - change (Z.to_int (Z.neg p)) with (Decimal.Neg (Pos.to_uint p)).
    rewrite NilZero.isi; [discriminate |discriminate |].
    intro H. inversion H as [H']. now apply (DecimalPos.Unsigned.to_uint_nonnil p).
Qed.

(** X6.  The stock text and colour and the out-of-stock prompt agree: a
    product shows "Out of Stock" exactly when its stock is 0, which is
    exactly when [addToCart] asks for a confirmation and when the colour is
    the orange one; it shows "Unspecified" exactly when its stock is
    negative; any other stock shows as its number. *)
Theorem stock_display_agrees (p : Product) :
  (getStockDisplayText (currentStock p) = "Out of Stock"%string <-> currentStock p = 0)
  /\ (asksConfirmation p = true <-> currentStock p = 0)
  /\ (getStockColorClass (currentStock p) defaultLowStockThreshold
      = "text-orange-500 dark:text-orange-400"%string <-> currentStock p = 0)
  /\ (getStockDisplayText (currentStock p) = "Unspecified"%string <-> currentStock p < 0)
  /\ (0 < currentStock p ->
      getStockDisplayText (currentStock p) = numberToString (currentStock p)).
Proof.
  set (s := currentStock p).
  assert (Hnum : forall txt, NilZero.int_of_string txt = None -> numberToString s <> txt).
  { intros txt Htxt Heq. apply (numberToString_parses s). now rewrite Heq. }
  unfold getStockDisplayText, getStockColorClass, asksConfirmation, defaultLowStockThreshold.
  fold s.
  destruct (s <? 0) eqn:Hneg; [apply Z.ltb_lt in Hneg | apply Z.ltb_ge in Hneg].
  - assert (Hz : (s =? 0) = false) by (apply Z.eqb_neq; lia). rewrite Hz.
    repeat split; intros; try discriminate; try lia.
  - destruct (s =? 0) eqn:Hz; [apply Z.eqb_eq in Hz | apply Z.eqb_neq in Hz].
    + repeat split; intros; try discriminate; try lia.
    + repeat split; intros; try discriminate; try lia; try reflexivity.
      * exfalso. now apply (Hnum "Out of Stock"%string).
      * destruct (s <=? 10); discriminate.
      * exfalso. now apply (Hnum "Unspecified"%string).
Qed.

(** ** More on the checkout *)

Lemma queueing_shows_no_toast (l : list Sale.t) :
  toastsShown (map LocalQueueSale l) = [].
Proof. induction l; simpl; [reflexivity | assumption]. Qed.

Lemma queueing_leaves_busy_flag (l : list Sale.t) :
  busyFlags (map LocalQueueSale l) = [].
Proof. induction l; simpl; [reflexivity | assumption]. Qed.

(** What the dispatch leaves alone on every path: the toasts and the busy
    flag, and, when online, the pending queue. *)
Lemma processCart_frame be h st w0 r w1 :
  processCart be h st w0 = (r, w1) ->
  toastsShown (effects w1) = toastsShown (effects w0)
  /\ busyFlags (effects w1) = busyFlags (effects w0)
  /\ (isOnline h = true -> pendingQueue w1 = pendingQueue w0).
Proof.
  unfold processCart, processOnlineSale, processOfflineSale.
  destruct (isOnline h); destruct (user h) as [u|]; intro H.
  - apply online_loop_any in H. destruct H as (Hp & Ht & Hb & _). auto.
  - inversion H; subst. auto.
  - destruct (offline_loop h st u (selectedCustomerId st) (findCustomer h st) (cart st) w0)
      as (w2 & Hrun & _ & _ & _ & _ & He).
    rewrite Hrun in H. inversion H; subst.
    unfold toastsShown, busyFlags. rewrite He, !flat_map_app.
    fold (toastsShown (map LocalQueueSale
            (map (saleData h st u (selectedCustomerId st) (findCustomer h st) false) (cart st)))).
    fold (busyFlags (map LocalQueueSale
            (map (saleData h st u (selectedCustomerId st) (findCustomer h st) false) (cart st)))).
    rewrite queueing_shows_no_toast, queueing_leaves_busy_flag, !app_nil_r.
    repeat split; try discriminate.
  - inversion H; subst. repeat split; try discriminate.
Qed.

(** X8.  Every checkout of a non-empty cart ends with exactly one toast,
    the one of its outcome, and with the busy flag down: the flag is not
    touched when the validation refuses the checkout, and is raised once
    and lowered once otherwise, whether the processing returns or throws. *)
Theorem checkout_toast_and_busy_flag be h st w :
  cart st <> [] ->
  let r := handleCheckout be h st w in
  toastsShown (effects (worldAfter r))
  = toastsShown (effects w)
    ++ [match outcomeOf r with
        | Rejected => ToastCustomerRequired
        | Completed => ToastSaleCompleted (negb (isOnline h))
        | _ => ToastError
        end]
  /\ busyFlags (effects (worldAfter r))
     = busyFlags (effects w) ++ (if customerMissing st then [] else [true; false])
  /\ (customerMissing st = false -> isProcessingCheckout (pageAfter r) = false).
Proof.
  intros Hc r. subst r. destruct (customerMissing st) eqn:Hv.
  - unfold handleCheckout. rewrite Hv. destruct (cart st); [now elim Hc|].
    unfold worldAfter, outcomeOf. simpl. log_simpl. repeat split. discriminate.
  - rewrite (handleCheckout_started be h st w Hc Hv).
    destruct (processCart be h st (emit (SetProcessing true) w)) as [c w1] eqn:Hrun.
    apply processCart_frame in Hrun. destruct Hrun as (Ht & Hb & _).
    destruct c as [[]|msg]; unfold worldAfter, outcomeOf, pageAfter; simpl;
      log_simpl; rewrite Ht, Hb; log_simpl; rewrite <- ?app_assoc; repeat split.
Qed.

Lemma checkout_toast_and_busy_flag_witness :
  let st := mkPageState twoLines None cash false in
  toastsShown (effects (worldAfter (handleCheckout rejectsSoap (hooksAt true) st shop)))
  = [ToastError]
  /\ busyFlags (effects (worldAfter (handleCheckout rejectsSoap (hooksAt true) st shop)))
     = [true; false].
Proof.
  intro st.
  destruct (checkout_toast_and_busy_flag rejectsSoap (hooksAt true) st shop)
    as (Ht & Hb & _); [discriminate|].
  split; [exact Ht | exact Hb].
Defined.

(** X9.  The cart is cleared exactly by a completed checkout: a completed
    checkout leaves an empty cart, no selected customer and payment method
    cash; any other outcome leaves the cart, the selection and the payment
    method as they were. *)
Theorem cart_cleared_iff_completed be h st w :
  cart st <> [] ->
  let r := handleCheckout be h st w in
  (outcomeOf r = Completed -> pageAfter r = mkPageState [] None cash false)
  /\ (outcomeOf r <> Completed ->
      cart (pageAfter r) = cart st
      /\ selectedCustomerId (pageAfter r) = selectedCustomerId st
      /\ paymentMethod (pageAfter r) = paymentMethod st)
  /\ (cart (pageAfter r) = [] <-> outcomeOf r = Completed).
Proof.
  intros Hc r. subst r. unfold handleCheckout.
  destruct (cart st) as [|it rest] eqn:Hcart; [now elim Hc|]. rewrite <- Hcart.
  destruct (customerMissing st).
  - unfold outcomeOf, pageAfter. simpl. split; [discriminate|]. split; [auto|].
    split; [congruence | discriminate].
  - destruct (processCart be h st (emit (SetProcessing true) w)) as [[[]|msg] w1];
      unfold outcomeOf, pageAfter; simpl.
    + split; [reflexivity|]. split; [intro H; now elim H|]. split; reflexivity.
    + split; [discriminate|]. split; [auto|]. split; [congruence | discriminate].
Qed.

Lemma cart_cleared_iff_completed_witness :
  let st := mkPageState twoLines None cash false in
  cart (pageAfter (handleCheckout reliable (hooksAt true) st shop)) = []
  /\ cart (pageAfter (handleCheckout rejectsSoap (hooksAt true) st shop)) = twoLines.
Proof.
  intro st.
  destruct (cart_cleared_iff_completed reliable (hooksAt true) st shop) as (H1 & _);
    [discriminate|].
  destruct (cart_cleared_iff_completed rejectsSoap (hooksAt true) st shop) as (_ & H2 & _);
    [discriminate|].
  split.
  - rewrite (H1 eq_refl). reflexivity.
  - apply H2. discriminate.
Defined.

(** X10.  Without a signed-in user, a checkout that passes the validation
    fails before anything is written: no sale row, nothing queued, no call
    to the service, one error toast, and the cart is kept - online and
    offline alike. *)
Theorem checkout_without_user_fails be h st w :
  cart st <> [] ->
  customerMissing st = false ->
  user h = None ->
  let r := handleCheckout be h st w in
  outcomeOf r = Failed
  /\ salesTable (worldAfter r) = salesTable w
  /\ pendingQueue (worldAfter r) = pendingQueue w
  /\ productsTable (worldAfter r) = productsTable w
  /\ customersTable (worldAfter r) = customersTable w
  /\ remoteCalls (effects (worldAfter r)) = remoteCalls (effects w)
  /\ cart (pageAfter r) = cart st.
Proof.
  intros Hc Hv Hu r. subst r. rewrite (handleCheckout_started be h st w Hc Hv).
  unfold processCart, processOnlineSale, processOfflineSale. rewrite Hu.
  destruct (isOnline h); unfold throw, outcomeOf, worldAfter, pageAfter; simpl;
    log_simpl; repeat split.
Qed.

Lemma checkout_without_user_fails_witness :
  let st := mkPageState twoLines None cash false in
  let h := mkHooks None [amina] true "2025-03-01T09:30:00.000Z" in
  outcomeOf (handleCheckout reliable h st shop) = Failed
  /\ salesTable (worldAfter (handleCheckout reliable h st shop)) = [].
Proof.
  intros st h.
  destruct (checkout_without_user_fails reliable h st shop) as (Ho & Hs & _);
    [discriminate | reflexivity | reflexivity |].
  split; [exact Ho | exact Hs].
Defined.

(** X11.  An online checkout never touches the pending queue, whatever its
    outcome. *)
Theorem online_checkout_never_queues be h st w :
  isOnline h = true ->
  let r := handleCheckout be h st w in
  pendingQueue (worldAfter r) = pendingQueue w
  /\ pendingOperations (worldAfter r) = pendingOperations w.
Proof.
  intros Hon r.
  assert (H : pendingQueue (worldAfter r) = pendingQueue w).
  { subst r. unfold handleCheckout. destruct (cart st) as [|it rest]; [reflexivity|].
    destruct (customerMissing st); [reflexivity|].
    destruct (processCart be h st (emit (SetProcessing true) w)) as [res w1] eqn:Hrun.
    apply processCart_frame in Hrun. destruct Hrun as (_ & _ & Hp).
    destruct res; unfold worldAfter; simpl; now rewrite (Hp Hon). }
  split; [exact H | unfold pendingOperations; now rewrite H].
Qed.

Lemma online_checkout_never_queues_witness :
  let st := mkPageState twoLines None cash false in
  pendingQueue (worldAfter (handleCheckout rejectsSoap (hooksAt true) st shop)) = [].
Proof.
  intro st.
  destruct (online_checkout_never_queues rejectsSoap (hooksAt true) st shop eq_refl)
    as [H _].
  exact H.
Defined.

(** The rows of a completed checkout, spelled out. *)
Lemma completed_checkout_rows be h st w st' w' :
  handleCheckout be h st w = (Completed, st', w') ->
  exists u,
    user h = Some u
    /\ let rows := map (saleData h st u (selectedCustomerId st) (findCustomer h st)
                                 (isOnline h)) (cart st) in
       if isOnline h
       then salesTable w' = salesTable w ++ rows /\ pendingQueue w' = pendingQueue w
       else pendingQueue w' = pendingQueue w ++ rows /\ salesTable w' = salesTable w.
Proof.
  intro H. apply handleCheckout_completed in H.
  destruct H as (_ & _ & _ & u & w1 & Hu & Hrun & ->).
  exists u. split; [exact Hu|].
  unfold processCart, processOnlineSale, processOfflineSale in Hrun. rewrite Hu in Hrun.
  destruct (isOnline h).
  - apply online_loop_returned in Hrun. destruct Hrun as (Hs & Hp & _).
    simpl in *. split; assumption.
  - destruct (offline_loop h st u (selectedCustomerId st) (findCustomer h st) (cart st)
                (emit (SetProcessing true) w)) as (w2 & Hrun' & Hp & Hs & _).
    rewrite Hrun in Hrun'. inversion Hrun'; subst w2.
    simpl in *. split; assumption.
Qed.

Lemma rows_total_amount h st u cid cust b (l : Cart) : forall acc,
  fold_left (fun sum r => sum + Sale.total_amount r)
            (map (saleData h st u cid cust b) l) acc
  = fold_left (fun sum item => sum + sellingPrice (product item) * quantity item) l acc.
Proof.
  induction l as [|it l IH]; intro acc; simpl; [reflexivity | apply IH].
Qed.

(** X12.  What a completed checkout records is what the page showed: the
    rows it created carry, line by line and in cart order, the
    [sellingPrice * quantity] of the cart lines, so reducing their
    [total_amount]s from 0 in that order, as the page reduces the cart,
    gives the cart total of the checkout button - the same products, added
    in the same order. *)
Theorem completed_checkout_records_cart_total be h st w st' w' :
  handleCheckout be h st w = (Completed, st', w') ->
  exists rows,
    (if isOnline h
     then salesTable w' = salesTable w ++ rows
     else pendingQueue w' = pendingQueue w ++ rows)
    /\ map Sale.total_amount rows = map lineTotal (cart st)
    /\ fold_left (fun sum r => sum + Sale.total_amount r) rows 0 = total (cart st).
Proof.
  intro H. apply completed_checkout_rows in H. destruct H as (u & _ & Hrows).
  cbv zeta in Hrows.
  exists (map (saleData h st u (selectedCustomerId st) (findCustomer h st) (isOnline h))
              (cart st)).
  split; [destruct (isOnline h); tauto|]. split.
  - rewrite map_map. apply map_ext. reflexivity.
  - apply rows_total_amount.
Qed.

Lemma completed_checkout_records_cart_total_witness :
  let st := mkPageState twoLines None cash false in
  exists rows,
    salesTable (worldAfter (handleCheckout reliable (hooksAt true) st shop)) = rows
    /\ map Sale.total_amount rows = [200; 50]
    /\ fold_left (fun sum r => sum + Sale.total_amount r) rows 0 = 250.
Proof.
  intro st.
  destruct (completed_checkout_records_cart_total reliable (hooksAt true) st shop
              (pageAfter (handleCheckout reliable (hooksAt true) st shop))
              (worldAfter (handleCheckout reliable (hooksAt true) st shop)) eq_refl)
    as (rows & Htab & Hmap & Hsum).
  exists rows. split; [exact Htab | split; [exact Hmap | exact Hsum]].
Defined.

(** X13.  Every row of a completed checkout carries the checkout's
    context: the signed-in user, the payment method, the selected customer
    id, the name of that customer if the page knows them (and no name
    otherwise), and [synced] exactly when the checkout ran online. *)
Theorem completed_checkout_row_context be h st w st' w' :
  handleCheckout be h st w = (Completed, st', w') ->
  exists u rows,
    user h = Some u
    /\ (if isOnline h
        then salesTable w' = salesTable w ++ rows
        else pendingQueue w' = pendingQueue w ++ rows)
    /\ Forall (fun r =>
                 Sale.user_id r = userId u
                 /\ Sale.payment_method r = paymentMethod st
                 /\ Sale.customer_id r = selectedCustomerId st
                 /\ Sale.customer_name r = nameOrNull (findCustomer h st)
                 /\ Sale.synced r = isOnline h) rows.
Proof.
  intro H. apply completed_checkout_rows in H. destruct H as (u & Hu & Hrows).
  cbv zeta in Hrows.
  exists u, (map (saleData h st u (selectedCustomerId st) (findCustomer h st) (isOnline h))
                 (cart st)).
  split; [exact Hu|]. split; [destruct (isOnline h); tauto|].
  apply Forall_map, Forall_forall. intros it _. repeat split.
Qed.

Lemma completed_checkout_row_context_witness :
  let st := mkPageState twoLines (Some "c1"%string) mpesa false in
  exists rows,
    pendingQueue (worldAfter (handleCheckout reliable (hooksAt false) st shop)) = rows
    /\ Forall (fun r => Sale.customer_name r = Some "Amina"%string
                        /\ Sale.payment_method r = mpesa
                        /\ Sale.synced r = false) rows.
Proof.
  intro st.
  destruct (completed_checkout_row_context reliable (hooksAt false) st shop
              (pageAfter (handleCheckout reliable (hooksAt false) st shop))
              (worldAfter (handleCheckout reliable (hooksAt false) st shop)) eq_refl)
    as (u & rows & _ & Htab & Hall).
  exists rows. split; [exact Htab|].
  eapply Forall_impl; [|exact Hall]. intros r (_ & Hpm & _ & Hname & Hsync).
  repeat split; assumption.
Defined.

(** ** Failures of the secondary writes *)

Lemma findCustomer_selected h st c :
  findCustomer h st = Some c -> customerMissing st = false.
Proof.
  unfold findCustomer, customerMissing. destruct (selectedCustomerId st) as [cid|];
    [|discriminate].
  destruct (truthy (Some cid)); [intros _; apply andb_false_r | discriminate].
Qed.

Section AcceptingService.
Variables (be : Remote) (h : Hooks) (st : PageState) (u : User).
Variables (cid : option string) (cust : option Customer.t).
Hypothesis inserts_accepted : forall w s, saleInsertError be w s = None.
Hypothesis customers_accepted : forall w c, customerUpdateError be w c = None.

Lemma accepted_line_returns it w :
  exists w', onlineLine be h st u cid cust it w = (Returned tt, w').
Proof.
  unfold onlineLine, bind, insertSale. rewrite inserts_accepted.
  destruct (paymentMethod st), cust as [c|];
    unfold updateCustomer, updateStock, say, ret; rewrite ?customers_accepted;
    match goal with
    | |- context [stockUpdateError be ?w ?p ?v] => destruct (stockUpdateError be w p v)
    end; eexists; reflexivity.
Qed.

Lemma accepted_loop_returns l : forall w,
  exists w', forEach (onlineLine be h st u cid cust) l w = (Returned tt, w').
Proof.
  induction l as [|it l IH]; intro w; simpl; [eexists; reflexivity|].
  unfold bind. destruct (accepted_line_returns it w) as [w1 ->]. apply IH.
Qed.

End AcceptingService.

(** X14.  A rejected stock update never fails a checkout: online, with a
    signed-in user, when the service accepts the sale rows and the customer
    updates, the checkout completes and every line's row is in the [sales]
    table, whatever happens to the stock updates. *)
Theorem stock_errors_do_not_fail_checkout be h st w u :
  isOnline h = true ->
  user h = Some u ->
  cart st <> [] ->
  customerMissing st = false ->
  (forall w0 s, saleInsertError be w0 s = None) ->
  (forall w0 c, customerUpdateError be w0 c = None) ->
  let r := handleCheckout be h st w in
  outcomeOf r = Completed
  /\ salesTable (worldAfter r)
     = salesTable w
       ++ map (saleData h st u (selectedCustomerId st) (findCustomer h st) true) (cart st)
  /\ stockWrites (effects (worldAfter r))
     = stockWrites (effects w) ++ map stockSent (cart st).
Proof.
  intros Hon Hu Hc Hv Hins Hcus r. subst r.
  rewrite (handleCheckout_started be h st w Hc Hv).
  unfold processCart, processOnlineSale. rewrite Hon, Hu.
  destruct (accepted_loop_returns be h st u (selectedCustomerId st) (findCustomer h st)
              Hins Hcus (cart st) (emit (SetProcessing true) w)) as [w1 Hrun].
  rewrite Hrun. apply online_loop_returned in Hrun.
  destruct Hrun as (Hs & _ & _ & Hk & _).
  unfold outcomeOf, worldAfter. simpl. log_simpl. rewrite Hs, Hk. log_simpl.
  repeat split.
Qed.

Lemma stock_errors_do_not_fail_checkout_witness :
  let st := mkPageState twoLines None cash false in
  let r := handleCheckout stockDown (hooksAt true) st shop in
  outcomeOf r = Completed
  /\ map Sale.product_id (salesTable (worldAfter r)) = ["p1"%string; "p2"%string]
  /\ productsTable (worldAfter r) = productsTable shop.
Proof.
  intros st r.
  destruct (stock_errors_do_not_fail_checkout stockDown (hooksAt true) st shop cashier)
    as (Ho & Hs & _); try reflexivity; try discriminate.
  split; [exact Ho|]. split; [subst r; rewrite Hs; reflexivity | reflexivity].
Defined.

(** X15.  A debt sale of a single line to a customer the page knows, with
    the service accepting the writes: the checkout completes with one
    customer write, which sets the customer's row to the debt and the
    purchases that the page held for them plus the line total, and the last
    purchase date to the time of the checkout. *)
Theorem single_line_debt_sale_updates_customer be h st w u it c :
  isOnline h = true ->
  user h = Some u ->
  cart st = [it] ->
  paymentMethod st = debt ->
  findCustomer h st = Some c ->
  (forall w0 s, saleInsertError be w0 s = None) ->
  (forall w0 k, customerUpdateError be w0 k = None) ->
  let r := handleCheckout be h st w in
  outcomeOf r = Completed
  /\ customerWrites (effects (worldAfter r))
     = customerWrites (effects w)
       ++ [(Customer.id c, Customer.outstandingDebt c + lineTotal it,
            Customer.totalPurchases c + lineTotal it)]
  /\ customersTable (worldAfter r)
     = map (patchCustomer (Customer.id c)
                          (Customer.outstandingDebt c + lineTotal it)
                          (Customer.totalPurchases c + lineTotal it) (now h))
           (customersTable w).
Proof.
  intros Hon Hu Hcart Hpm Hcust Hins Hcus r. subst r.
  assert (Hc : cart st <> []) by (rewrite Hcart; discriminate).
  rewrite (handleCheckout_started be h st w Hc (findCustomer_selected h st c Hcust)).
  unfold processCart, processOnlineSale. rewrite Hon, Hu, Hcart, Hcust. simpl.
  unfold bind, onlineLine, bind, insertSale. rewrite Hins, Hpm.
  unfold updateCustomer. rewrite Hcus. unfold updateStock, say, ret, lineTotal.
  match goal with
  | |- context [stockUpdateError be ?w0 ?p ?v] => destruct (stockUpdateError be w0 p v)
  end; unfold outcomeOf, worldAfter; simpl; log_simpl; repeat split.
Qed.

Lemma single_line_debt_sale_updates_customer_witness :
  let st := mkPageState [mkCartItem maize 2] (Some "c1"%string) debt false in
  let r := handleCheckout reliable (hooksAt true) st shop in
  outcomeOf r = Completed
  /\ map Customer.outstandingDebt (customersTable (worldAfter r)) = [200]
  /\ map Customer.totalPurchases (customersTable (worldAfter r)) = [200]
  /\ map Customer.lastPurchaseDate (customersTable (worldAfter r))
     = [Some "2025-03-01T09:30:00.000Z"%string].
Proof.
  intros st r.
  destruct (single_line_debt_sale_updates_customer reliable (hooksAt true) st shop
              cashier (mkCartItem maize 2) amina)
    as (Ho & _ & Ht); try reflexivity.
  split; [exact Ho|]. subst r. rewrite Ht. repeat split.
Defined.

(** X16.  When the customer update of a debt line throws, the line's sale
    row has already been inserted and stays, and the line's stock update is
    never sent: the row is recorded against neither the customer's account
    nor the stock. *)
Theorem customer_update_failure_skips_stock be h st u cid c it w msg :
  paymentMethod st = debt ->
  saleInsertError be w (saleData h st u cid (Some c) true it) = None ->
  customerUpdateError be
    (snd (insertSale be (saleData h st u cid (Some c) true it) w)) (Customer.id c)
    = Some msg ->
  exists w',
    onlineLine be h st u cid (Some c) it w = (Thrown msg, w')
    /\ salesTable w' = salesTable w ++ [saleData h st u cid (Some c) true it]
    /\ customersTable w' = customersTable w
    /\ productsTable w' = productsTable w
    /\ stockWrites (effects w') = stockWrites (effects w).
Proof.
  intros Hpm Hins Hcus. unfold insertSale in Hcus. rewrite Hins in Hcus. simpl in Hcus.
  unfold onlineLine, bind, insertSale. rewrite Hins, Hpm.
  unfold updateCustomer. rewrite Hcus.
  eexists. split; [reflexivity|]. log_simpl. repeat split.
Qed.

Lemma customer_update_failure_skips_stock_witness :
  let st := mkPageState [mkCartItem maize 2] (Some "c1"%string) debt false in
  exists w',
    onlineLine customersDown (hooksAt true) st cashier (Some "c1"%string) (Some amina)
               (mkCartItem maize 2) shop
    = (Thrown "customer update failed", w')
    /\ map Sale.product_id (salesTable w') = ["p1"%string]
    /\ stockWrites (effects w') = []
    /\ customersTable w' = [amina].
Proof.
  intro st.
  destruct (customer_update_failure_skips_stock customersDown (hooksAt true) st cashier
              (Some "c1"%string) amina (mkCartItem maize 2) shop "customer update failed")
    as (w' & Hrun & Hs & Hc & _ & Hk); try reflexivity.
  exists w'. split; [exact Hrun|]. rewrite Hs, Hc, Hk. repeat split.
Defined.

(** X7.  The stock a sale writes, as the page will show it: never
    "Unspecified"; "Out of Stock" exactly when the line's stock does not
    exceed its quantity - so a product of unspecified (negative) stock shows
    as out of stock after one sale - and the remaining number otherwise. *)
Theorem stock_sent_display it :
  getStockDisplayText (snd (stockSent it)) <> "Unspecified"%string
  /\ (currentStock (product it) <= quantity it ->
      getStockDisplayText (snd (stockSent it)) = "Out of Stock"%string)
  /\ (quantity it < currentStock (product it) ->
      getStockDisplayText (snd (stockSent it))
      = numberToString (currentStock (product it) - quantity it)).
Proof.
  unfold stockSent, getStockDisplayText. simpl.
  set (s := currentStock (product it)). set (q := quantity it).
  assert (Hneg : (Z.max 0 (s - q) <? 0) = false) by (apply Z.ltb_ge; lia).
  rewrite Hneg. split; [|split].
  - destruct (Z.max 0 (s - q) =? 0); [discriminate|].
    intro H. apply (numberToString_parses (Z.max 0 (s - q))). now rewrite H.
  - intro Hle. replace (Z.max 0 (s - q)) with 0 by lia. reflexivity.
  - intro Hlt. replace (Z.max 0 (s - q)) with (s - q) by lia.
    replace (s - q =? 0) with false by (symmetry; apply Z.eqb_neq; lia). reflexivity.
Qed.

Lemma stock_sent_display_witness :
  let unspecified := mkProduct "p3" "Loose sugar" "Food" 20 15 (-1) in
  getStockDisplayText (currentStock unspecified) = "Unspecified"%string
  /\ getStockDisplayText (snd (stockSent (mkCartItem unspecified 1))) = "Out of Stock"%string
  /\ getStockDisplayText (snd (stockSent (mkCartItem maize 2))) = "8"%string.
Proof.
  intro unspecified.
  destruct (stock_sent_display (mkCartItem unspecified 1)) as (_ & Hout & _).
  destruct (stock_sent_display (mkCartItem maize 2)) as (_ & _ & Hnum).
  split; [reflexivity|]. split; [apply Hout; simpl; lia|].
  rewrite Hnum by (simpl; lia). reflexivity.
Defined.

Lemma stock_display_agrees_witness :
  getStockDisplayText (currentStock soap) = "Out of Stock"%string
  /\ asksConfirmation soap = true
  /\ getStockDisplayText (currentStock maize) = "10"%string.
Proof.
  destruct (stock_display_agrees soap) as (Hd & Ha & _).
  destruct (stock_display_agrees maize) as (_ & _ & _ & _ & Hn).
  split; [apply Hd; reflexivity|]. split; [apply Ha; reflexivity|].
  rewrite Hn by (simpl; lia). reflexivity.
Defined.

Lemma customers_untouched_without_debt_witness :
  let st := mkPageState twoLines (Some "c1"%string) mpesa false in
  customersTable (worldAfter (handleCheckout reliable (hooksAt true) st shop)) = [amina]
  /\ customerWrites (effects (worldAfter (handleCheckout reliable (hooksAt true) st shop)))
     = [].
Proof.
  intro st.
  destruct (customers_untouched_without_debt reliable (hooksAt true) st shop) as [Ht Hw].
  - left. discriminate.
  - split; [exact Ht | exact Hw].
Defined.

End SalesPageFacts.

(* ===================================================================== *)
(** * Properties of useOfflineAwareData                                    *)
(* ===================================================================== *)

Module OfflineAwareDataFacts.
Import OfflineAwareData.

Lemma strictEq_eq a b : strictEq a b = true <-> a = b.
Proof.
  destruct a, b; simpl; split; intro H; try discriminate; try reflexivity.
  - apply Bool.eqb_prop in H. now subst.
  - inversion H. apply Bool.eqb_reflx.
  - apply Z.eqb_eq in H. now subst.
  - inversion H. apply Z.eqb_refl.
  - apply String.eqb_eq in H. now subst.
  - inversion H. apply String.eqb_refl.
Qed.

Lemma isSet_iff v : isSet v = true <-> v <> JsUndefined /\ v <> JsNull.
Proof.
  destruct v; simpl; split; intro H; try discriminate; try reflexivity;
    try (split; discriminate); destruct H as [H1 H2]; congruence.
Qed.

Lemma filter_twice {A} (f g : A -> bool) (l : list A) :
  filter f (filter g l) = filter (fun x => g x && f x) l.
Proof.
  induction l as [|x l IH]; simpl; [reflexivity|].
  destruct (g x); simpl; [destruct (f x)|]; now rewrite IH.
Qed.

(** The loop of successive filters keeps the rows that pass all of them. *)
Lemma applyFilters_matchesAll filters : forall rows,
  applyFilters filters rows = filter (matchesAll filters) rows.
Proof.
  unfold applyFilters.
  induction filters as [|[key value] filters IH]; intro rows; simpl.
  - symmetry. apply forallb_filter_id. apply forallb_forall. reflexivity.
  - rewrite IH. unfold matchesAll. simpl. destruct (isSet value); simpl.
    + apply filter_twice.
    + reflexivity.
Qed.

Lemma matchesAll_iff filters item :
  matchesAll filters item = true
  <-> forall key value, In (key, value) filters ->
        value <> JsUndefined -> value <> JsNull -> getProp item key = value.
Proof.
  unfold matchesAll. rewrite forallb_forall. split.
  - intros H key value Hin Hu Hn. specialize (H _ Hin). simpl in H.
    assert (Hs : isSet value = true) by (apply isSet_iff; split; assumption).
    rewrite Hs in H. simpl in H. now apply strictEq_eq.
  - intros H [key value] Hin. simpl.
    destruct (isSet value) eqn:Hs; [|reflexivity]. simpl.
    apply isSet_iff in Hs. destruct Hs as [Hu Hn].
    apply strictEq_eq. now apply H.
Qed.

(** C6.  While offline, with the cache store answering, [fetchData] makes
    no remote query and ends with exactly the cached rows of the
    collection, in their order, that agree with every filter whose value
    is neither [undefined] nor [null]; such filters are ignored.  A cache
    miss gives the empty sequence, and no error is set. *)
Theorem C6_offline_read_filters_the_cache env t select filters hs w :
  isOnline env = false ->
  cacheReadError env (log w) t = None ->
  let r := fetchData env t select filters hs w in
  data (fst r) = filter (matchesAll filters) (orEmpty (cache w t))
  /\ (forall item,
        In item (data (fst r))
        <-> In item (orEmpty (cache w t))
            /\ forall key value, In (key, value) filters ->
                 value <> JsUndefined -> value <> JsNull -> getProp item key = value)
  /\ (cache w t = None -> data (fst r) = [])
  /\ error (fst r) = None
  /\ loading (fst r) = false
  /\ remoteQueries (log (snd r)) = remoteQueries (log w).
Proof.
  intros Hoff Hread r.
  assert (Hr : r = (setLoading false
                      (setData (applyFilters filters (orEmpty (cache w t)))
                               (setError None (setLoading true hs))),
                    note (CacheRead t) w)).
  { subst r. unfold fetchData, tryBlock, getOfflineData. now rewrite Hoff, Hread. }
  rewrite Hr. simpl. rewrite applyFilters_matchesAll.
  split; [reflexivity|]. split; [|split; [|split; [|split]]].
  - intro item. rewrite filter_In, matchesAll_iff. reflexivity.
  - intros ->. reflexivity.
  - reflexivity.
  - reflexivity.
  - unfold remoteQueries. rewrite filter_app. simpl. apply app_nil_r.
Qed.

(** C6 on a run: the filter on [category] keeps the flour row, the filter
    with a [null] value is ignored; a collection never cached gives []. *)
Lemma C6_offline_read_filters_the_cache_witness :
  data (fst (fetchData offlineEnv products "*" foodOnly initial stocked)) = [flourRow]
  /\ data (fst (fetchData offlineEnv customers "*" foodOnly initial stocked)) = []
  /\ error (fst (fetchData offlineEnv customers "*" foodOnly initial stocked)) = None.
Proof.
  destruct (C6_offline_read_filters_the_cache offlineEnv products "*" foodOnly initial stocked
              eq_refl eq_refl) as (Hdata & _).
  destruct (C6_offline_read_filters_the_cache offlineEnv customers "*" foodOnly initial stocked
              eq_refl eq_refl) as (_ & _ & Hmiss & Herr & _).
  split; [rewrite Hdata; reflexivity|]. split; [apply Hmiss; reflexivity | exact Herr].
Defined.

(** X22.  When the service answers a query with an error, [fetchData] does not
    throw: it sets the error text and, if the cache has a snapshot of the
    collection, ends with that snapshot as it is. *)
Lemma online_failure_falls_back env t select filters hs w e rows :
  isOnline env = true ->
  runQuery env t select (eqConstraints filters) = inr (mkQueryResult None (Some e)) ->
  cacheReadError env
    (log w ++ [RemoteQuery t select (eqConstraints filters); ConsoleError]) t = None ->
  cache w t = Some rows ->
  let r := fetchData env t select filters hs w in
  data (fst r) = rows
  /\ error (fst r) = Some (errorText e)
  /\ loading (fst r) = false.
Proof.
  intros Hon Hq Hread Hc r. subst r.
  unfold fetchData, tryBlock, catchBlock, getOfflineData. rewrite Hon, Hq. simpl.
  rewrite <- app_assoc. simpl. rewrite Hread, Hc. simpl. repeat split.
Qed.

(** C5 at a cache of two products and the filter [category = Food], with
    the service failing: the read ends with the error set and with both
    cached rows, where the offline read of the same cache with the same
    filters gives the flour row only. *)
Theorem C5_fallback_skips_the_filters :
  let failed := fst (fetchData failingEnv products "*" foodOnly initial stocked) in
  let offline := fst (fetchData offlineEnv products "*" foodOnly initial stocked) in
  error failed = Some "JWT expired"%string
  /\ data failed = [flourRow; soapRow]
  /\ data offline = [flourRow]
  /\ data failed <> filter (matchesAll foodOnly) (orEmpty (cache stocked products)).
Proof.
  vm_compute. repeat split. discriminate.
Qed.

(** ** More on fetchData *)

Lemma Table_eqb_eq a b : Table_eqb a b = true <-> a = b.
Proof. destruct a, b; simpl; split; intro H; try discriminate; reflexivity. Qed.

(** X18.  A successful online read: the hook ends with the rows the
    service returned, no error and not loading; the rows replace the cached
    snapshot of that collection and of no other; and the service was asked
    once, with one [eq] constraint per filter whose value is set. *)
Theorem online_success_refreshes_cache env t select filters hs w rows :
  isOnline env = true ->
  runQuery env t select (eqConstraints filters) = inr (mkQueryResult (Some rows) None) ->
  cacheWriteError env (log w ++ [RemoteQuery t select (eqConstraints filters)]) t = None ->
  let r := fetchData env t select filters hs w in
  data (fst r) = rows
  /\ error (fst r) = None
  /\ loading (fst r) = false
  /\ cache (snd r) t = Some rows
  /\ (forall t', t' <> t -> cache (snd r) t' = cache w t')
  /\ log (snd r)
     = log w ++ [RemoteQuery t select (eqConstraints filters); CacheWrite t rows].
Proof.
  intros Hon Hq Hwrite r. subst r.
  unfold fetchData, tryBlock, storeOfflineData. rewrite Hon, Hq. simpl.
  rewrite Hwrite. simpl.
  assert (Htt : Table_eqb t t = true) by now apply Table_eqb_eq.
  rewrite Htt, <- app_assoc. repeat split.
  intros t' Hne. destruct (Table_eqb t' t) eqn:E; [|reflexivity].
  apply Table_eqb_eq in E. contradiction.
Qed.

Lemma online_success_refreshes_cache_witness :
  let env := mkEnv true (fun _ _ _ => inr (mkQueryResult (Some [flourRow]) None))
                   (fun _ _ => None) (fun _ _ => None) in
  let r := fetchData env products "*" foodOnly initial stocked in
  data (fst r) = [flourRow]
  /\ cache (snd r) products = Some [flourRow]
  /\ cache (snd r) customers = None.
Proof.
  intros env r.
  destruct (online_success_refreshes_cache env products "*" foodOnly initial stocked
              [flourRow] eq_refl eq_refl eq_refl) as (Hd & _ & _ & Hc & Ho & _).
  split; [exact Hd|]. split; [exact Hc|].
  subst r. rewrite Ho by discriminate. reflexivity.
Defined.

(** X19.  The cache is per collection, not per filter set: after a
    successful online read, an offline read of the same collection, with
    any filters, sees the rows that online read returned and filters those. *)
Theorem online_then_offline_read env t select filters hs w rows
    env' select' filters' hs' :
  isOnline env = true ->
  runQuery env t select (eqConstraints filters) = inr (mkQueryResult (Some rows) None) ->
  cacheWriteError env (log w ++ [RemoteQuery t select (eqConstraints filters)]) t = None ->
  isOnline env' = false ->
  cacheReadError env'
    (log w ++ [RemoteQuery t select (eqConstraints filters); CacheWrite t rows]) t = None ->
  let w1 := snd (fetchData env t select filters hs w) in
  let r := fetchData env' t select' filters' hs' w1 in
  data (fst r) = filter (matchesAll filters') rows
  /\ error (fst r) = None.
Proof.
  intros Hon Hq Hwrite Hoff Hread w1 r.
  assert (Hw1 : cache w1 t = Some rows
                /\ log w1 = log w ++ [RemoteQuery t select (eqConstraints filters);
                                      CacheWrite t rows]).
  { subst w1. unfold fetchData, tryBlock, storeOfflineData. rewrite Hon, Hq. simpl.
    rewrite Hwrite. simpl.
    assert (Htt : Table_eqb t t = true) by now apply Table_eqb_eq.
    rewrite Htt, <- app_assoc. split; reflexivity. }
  destruct Hw1 as [Hc Hl]. subst r.
  unfold fetchData, tryBlock, getOfflineData. rewrite Hoff, Hl, Hread, Hc. simpl.
  rewrite applyFilters_matchesAll. split; reflexivity.
Qed.

Lemma online_then_offline_read_witness :
  let env := mkEnv true (fun _ _ _ => inr (mkQueryResult (Some [flourRow]) None))
                   (fun _ _ => None) (fun _ _ => None) in
  let w1 := snd (fetchData env products "*" foodOnly initial stocked) in
  data (fst (fetchData offlineEnv products "*" [] initial w1)) = [flourRow].
Proof.
  intros env w1.
  destruct (online_then_offline_read env products "*" foodOnly initial stocked [flourRow]
              offlineEnv "*" [] initial eq_refl eq_refl eq_refl eq_refl eq_refl)
    as [Hd _].
  exact Hd.
Defined.

(** X20.  When the cache store fails to take the fresh rows of a
    successful query, the hook does not show them: it reports the store's
    error and shows the snapshot the cache still holds (or keeps what it
    showed before, when the cache holds none). *)
Theorem cache_write_failure_hides_fresh_rows env t select filters hs w rows e :
  isOnline env = true ->
  runQuery env t select (eqConstraints filters) = inr (mkQueryResult (Some rows) None) ->
  cacheWriteError env (log w ++ [RemoteQuery t select (eqConstraints filters)]) t = Some e ->
  cacheReadError env
    (log w ++ [RemoteQuery t select (eqConstraints filters); CacheWrite t rows;
               ConsoleError]) t = None ->
  let r := fetchData env t select filters hs w in
  data (fst r) = match cache w t with Some old => old | None => data hs end
  /\ error (fst r) = Some (errorText e)
  /\ loading (fst r) = false
  /\ cache (snd r) t = cache w t.
Proof.
  intros Hon Hq Hwrite Hread r. subst r.
  unfold fetchData, tryBlock, storeOfflineData, catchBlock, getOfflineData.
  rewrite Hon, Hq. simpl. rewrite Hwrite. simpl.
  rewrite <- !app_assoc. simpl. rewrite Hread.
  destruct (cache w t) eqn:Hc; simpl; rewrite ?Hc; repeat split.
Qed.

Lemma cache_write_failure_hides_fresh_rows_witness :
  let env := mkEnv true (fun _ _ _ => inr (mkQueryResult (Some [flourRow]) None))
                   (fun _ _ => None)
                   (fun _ _ => Some (mkExn true "QuotaExceededError")) in
  let r := fetchData env products "*" foodOnly initial stocked in
  data (fst r) = [flourRow; soapRow]
  /\ error (fst r) = Some "QuotaExceededError"%string.
Proof.
  intros env r.
  destruct (cache_write_failure_hides_fresh_rows env products "*" foodOnly initial stocked
              [flourRow] (mkExn true "QuotaExceededError") eq_refl eq_refl eq_refl eq_refl)
    as (Hd & He & _).
  split; [exact Hd | exact He].
Defined.

(** An answer without rows and without an error changes nothing the
    hook shows: the data stays, the cache is not written, and the only
    trace is the query. *)
Theorem online_answer_without_rows env t select filters hs w :
  isOnline env = true ->
  runQuery env t select (eqConstraints filters) = inr (mkQueryResult None None) ->
  let r := fetchData env t select filters hs w in
  data (fst r) = data hs
  /\ error (fst r) = None
  /\ loading (fst r) = false
  /\ cache (snd r) = cache w
  /\ log (snd r) = log w ++ [RemoteQuery t select (eqConstraints filters)].
Proof.
  intros Hon Hq r. subst r. unfold fetchData, tryBlock. rewrite Hon, Hq.
  simpl. repeat split.
Qed.

Lemma online_answer_without_rows_witness :
  let env := mkEnv true (fun _ _ _ => inr (mkQueryResult None None))
                   (fun _ _ => None) (fun _ _ => None) in
  let hs := mkHookState [soapRow] false (Some "stale error"%string) in
  data (fst (fetchData env products "*" foodOnly hs stocked)) = [soapRow]
  /\ error (fst (fetchData env products "*" foodOnly hs stocked)) = None.
Proof.
  intros env hs.
  destruct (online_answer_without_rows env products "*" foodOnly hs stocked eq_refl eq_refl)
    as (Hd & He & _).
  split; [exact Hd | exact He].
Defined.

(** X21.  An offline read whose cache store fails on the read and again on
    the fallback read: the hook reports the first error, keeps the data it
    had, stops loading, and never asks the service. *)
Theorem offline_read_with_failing_cache env t select filters hs w e e' :
  isOnline env = false ->
  cacheReadError env (log w) t = Some e ->
  cacheReadError env (log w ++ [CacheRead t; ConsoleError]) t = Some e' ->
  let r := fetchData env t select filters hs w in
  data (fst r) = data hs
  /\ error (fst r) = Some (errorText e)
  /\ loading (fst r) = false
  /\ remoteQueries (log (snd r)) = remoteQueries (log w).
Proof.
  intros Hoff H1 H2 r. subst r.
  unfold fetchData, tryBlock, catchBlock, getOfflineData. rewrite Hoff, H1. simpl.
  rewrite <- app_assoc. simpl. rewrite H2. simpl.
  unfold remoteQueries. rewrite !filter_app. simpl. rewrite !app_nil_r.
  repeat split.
Qed.

Lemma offline_read_with_failing_cache_witness :
  let env := mkEnv false (fun _ _ _ => inr (mkQueryResult None None))
                   (fun _ _ => Some (mkExn false "")) (fun _ _ => None) in
  let hs := mkHookState [soapRow] false None in
  data (fst (fetchData env products "*" foodOnly hs stocked)) = [soapRow]
  /\ error (fst (fetchData env products "*" foodOnly hs stocked))
     = Some "Unknown error occurred"%string.
Proof.
  intros env hs.
  destruct (offline_read_with_failing_cache env products "*" foodOnly hs stocked
              (mkExn false "") (mkExn false "") eq_refl eq_refl eq_refl) as (Hd & He & _).
  split; [exact Hd | exact He].
Defined.

(** ** Filters *)

Lemma matchesAll_eqConstraints filters item :
  matchesAll (eqConstraints filters) item = matchesAll filters item.
Proof.
  unfold matchesAll, eqConstraints.
  induction filters as [|[key value] filters IH]; simpl; [reflexivity|].
  destruct (isSet value) eqn:E; simpl; rewrite ?E; simpl; now rewrite IH.
Qed.

(** X23.  Online and offline agree on which filters count: the [eq]
    constraints sent to the service are the filters whose value is neither
    [undefined] nor [null], in their order, and filtering cached rows by
    those constraints is filtering them by the filters. *)
Theorem constraints_are_the_set_filters filters rows :
  (forall key value,
      In (key, value) (eqConstraints filters)
      <-> In (key, value) filters /\ value <> JsUndefined /\ value <> JsNull)
  /\ eqConstraints (eqConstraints filters) = eqConstraints filters
  /\ applyFilters (eqConstraints filters) rows = applyFilters filters rows.
Proof.
  split; [|split].
  - intros key value. unfold eqConstraints. rewrite filter_In. simpl.
    rewrite isSet_iff. reflexivity.
  - unfold eqConstraints. induction filters as [|[key value] filters IH]; simpl;
      [reflexivity|].
    destruct (isSet value) eqn:E; simpl; rewrite ?E, IH; reflexivity.
  - rewrite !applyFilters_matchesAll. apply filter_ext.
    intro item. apply matchesAll_eqConstraints.
Qed.

Lemma constraints_are_the_set_filters_witness :
  eqConstraints foodOnly = [("category"%string, JsString "Food")]
  /\ applyFilters (eqConstraints foodOnly) [flourRow; soapRow]
     = applyFilters foodOnly [flourRow; soapRow].
Proof.
  destruct (constraints_are_the_set_filters foodOnly [flourRow; soapRow]) as (_ & _ & H).
  split; [reflexivity | exact H].
Defined.

Lemma matchesAll_perm filters filters' item :
  Permutation filters filters' -> matchesAll filters item = matchesAll filters' item.
Proof.
  unfold matchesAll. induction 1 as [| kv l l' Hp IH | a b l | l l' l'' H1 IH1 H2 IH2];
    simpl.
  - reflexivity.
  - now rewrite IH.
  - destruct (negb (isSet (snd a)) || strictEq (getProp item (fst a)) (snd a)),
             (negb (isSet (snd b)) || strictEq (getProp item (fst b)) (snd b));
      reflexivity.
  - congruence.
Qed.

Lemma matchesAll_app f1 f2 item :
  matchesAll (f1 ++ f2) item = matchesAll f1 item && matchesAll f2 item.
Proof. unfold matchesAll. apply forallb_app. Qed.

(** X24.  The client-side filtering does not depend on the order of the
    filters, applying it twice is applying it once, filtering by two filter
    sets one after the other is filtering by both, and it only ever drops
    rows. *)
Theorem applyFilters_algebra filters filters' rows :
  (Permutation filters filters' -> applyFilters filters rows = applyFilters filters' rows)
  /\ applyFilters filters (applyFilters filters rows) = applyFilters filters rows
  /\ applyFilters filters' (applyFilters filters rows) = applyFilters (filters ++ filters') rows
  /\ (forall item, In item (applyFilters filters rows) -> In item rows)
  /\ (List.length (applyFilters filters rows) <= List.length rows)%nat.
Proof.
  rewrite !applyFilters_matchesAll. split; [|split; [|split; [|split]]].
  - intro Hp. apply filter_ext. intro item. now apply matchesAll_perm.
  - rewrite filter_twice. apply filter_ext. intro item.
    destruct (matchesAll filters item); reflexivity.
  - rewrite filter_twice. apply filter_ext. intro item. now rewrite matchesAll_app.
  - intros item Hin. apply filter_In in Hin. tauto.
  - apply filter_length_le.
Qed.

Lemma applyFilters_algebra_witness :
  applyFilters foodOnly [flourRow; soapRow] = applyFilters (rev foodOnly) [flourRow; soapRow].
Proof.
  destruct (applyFilters_algebra foodOnly (rev foodOnly) [flourRow; soapRow]) as (Hp & _).
  apply Hp, Permutation_rev.
Defined.

Lemma online_failure_falls_back_witness :
  let r := fetchData failingEnv customers "*" foodOnly initial
             (mkWorld (fun _ => Some [soapRow]) []) in
  data (fst r) = [soapRow]
  /\ error (fst r) = Some "JWT expired"%string
  /\ loading (fst r) = false.
Proof.
  intro r.
  exact (online_failure_falls_back failingEnv customers "*" foodOnly initial
           (mkWorld (fun _ => Some [soapRow]) []) (mkExn true "JWT expired") [soapRow]
           eq_refl eq_refl eq_refl eq_refl).
Defined.

End OfflineAwareDataFacts.

(* ===================================================================== *)
(** * Properties of the sales-trend chart                                  *)
(* ===================================================================== *)

Module SalesTrendChartFacts.
Import SalesTrendChart.

Example utc_fields :
  (utcYear march1, utcMonth march1, utcDay march1, getHours utc march1) = (2025, 2, 1, 9).
Proof. vm_compute. reflexivity. Qed.

Example hourKey_march1 : hourKey utc march1 = "2025-03-01-09"%string.
Proof. vm_compute. reflexivity. Qed.

Example hourKey_oldSale : hourKey utc (timestamp oldSale) = "2025-02-26-09"%string.
Proof. vm_compute. reflexivity. Qed.

(** ** Sums over the map *)

Lemma sumZ_app l1 l2 : sumZ (l1 ++ l2) = sumZ l1 + sumZ l2.
Proof. induction l1 as [|x l1 IH]; simpl; [reflexivity | rewrite IH; lia]. Qed.

Lemma fold_left_revenue chart : forall acc,
  fold_left (fun sum item => sum + revenue item) chart acc
  = acc + sumZ (map revenue chart).
Proof.
  induction chart as [|p chart IH]; intro acc; simpl; [lia|].
  rewrite IH. lia.
Qed.

Lemma totalRevenue_sum chart : totalRevenue chart = sumZ (map revenue chart).
Proof. unfold totalRevenue. now rewrite fold_left_revenue. Qed.

(** ** What [set] does to the map *)

Lemma mapSet_sum m key c :
  sumValues (mapSet m key (getOrZero m key + c)) = sumValues m + c.
Proof.
  unfold sumValues, getOrZero.
  induction m as [|[k v] rest IH]; simpl; [lia|].
  destruct (k =? key)%string; simpl; [lia|].
  rewrite IH. lia.
Qed.


Lemma mapSet_nonneg m key v :
  0 <= v -> Forall (fun e => 0 <= snd e) m -> Forall (fun e => 0 <= snd e) (mapSet m key v).
Proof.
  intros Hv. induction 1 as [|[k x] rest Hx Hrest IH]; simpl.
  - repeat constructor. exact Hv.
  - destruct (k =? key)%string; constructor; simpl in *; assumption.
Qed.

Lemma getOrZero_nonneg m key :
  Forall (fun e => 0 <= snd e) m -> 0 <= getOrZero m key.
Proof.
  unfold getOrZero. induction 1 as [|[k x] rest Hx Hrest IH]; simpl; [lia|].
  destruct (k =? key)%string; [exact Hx | exact IH].
Qed.

Lemma mapSet_zero m key :
  Forall (fun e => snd e = 0) m -> Forall (fun e => snd e = 0) (mapSet m key 0).
Proof.
  induction 1 as [|[k x] rest Hx Hrest IH]; simpl.
  - repeat constructor.
  - destruct (k =? key)%string; constructor; simpl in *; auto.
Qed.

Lemma mapSet_keys m key v :
  map fst (mapSet m key v)
  = if existsb (fun k => (k =? key)%string) (map fst m)
    then map fst m else map fst m ++ [key].
Proof.
  induction m as [|[k x] rest IH]; simpl; [reflexivity|].
  destruct (k =? key)%string; simpl; [reflexivity|].
  rewrite IH. destruct (existsb _ (map fst rest)); reflexivity.
Qed.

Lemma mapSet_NoDup m key v : NoDup (map fst m) -> NoDup (map fst (mapSet m key v)).
Proof.
  intro H. rewrite mapSet_keys.
  destruct (existsb (fun k => (k =? key)%string) (map fst m)) eqn:E; [assumption|].
  apply NoDup_app; [assumption | repeat constructor; intros [] |].
  intros k Hk [Hk'|[]]. subst k.
  assert (Hex : existsb (fun k => (k =? key)%string) (map fst m) = true).
  { apply existsb_exists. exists key. split; [assumption | apply String.eqb_refl]. }
  congruence.
Qed.

Lemma wellKept_nil : wellKept [].
Proof. split; constructor. Qed.

Lemma wellKept_mapSet m key v : 0 <= v -> wellKept m -> wellKept (mapSet m key v).
Proof.
  intros Hv [Hnd Hpos]. split; [now apply mapSet_NoDup | now apply mapSet_nonneg].
Qed.

(** ** The buckets that start at 0 *)

Lemma fold_set_zero {A} (key : A -> string) (l : list A) : forall m,
  wellKept m /\ allZero m ->
  wellKept (fold_left (fun m i => mapSet m (key i) 0) l m)
  /\ allZero (fold_left (fun m i => mapSet m (key i) 0) l m).
Proof.
  induction l as [|i l IH]; intros m [Hk Hz]; simpl; [split; assumption|].
  apply IH. split; [apply wellKept_mapSet; [lia | assumption] | now apply mapSet_zero].
Qed.

Lemma dayLoop_zero api rounds : forall d now m,
  wellKept m /\ allZero m ->
  wellKept (dayLoop api rounds d now m) /\ allZero (dayLoop api rounds d now m).
Proof.
  induction rounds as [|rounds IH]; intros d now m [Hk Hz]; simpl; [split; assumption|].
  destruct (d <=? now); [|split; assumption].
  apply IH. split; [apply wellKept_mapSet; [lia | assumption] | now apply mapSet_zero].
Qed.

Lemma monthLoop_zero api rounds : forall mo endMonth acc,
  wellKept acc /\ allZero acc ->
  wellKept (monthLoop api rounds mo endMonth acc)
  /\ allZero (monthLoop api rounds mo endMonth acc).
Proof.
  induction rounds as [|rounds IH]; intros mo endMonth acc [Hk Hz]; simpl;
    [split; assumption|].
  destruct (mo <=? endMonth); [|split; assumption].
  apply IH. split; [apply wellKept_mapSet; [lia | assumption] | now apply mapSet_zero].
Qed.

Lemma emptyBuckets_zero api tf now sales :
  wellKept (emptyBuckets api tf now sales) /\ allZero (emptyBuckets api tf now sales).
Proof.
  assert (H0 : wellKept [] /\ allZero []) by (split; [apply wellKept_nil | constructor]).
  destruct tf; unfold emptyBuckets.
  - unfold hourlyBuckets.
    apply (fold_set_zero (fun i => hourKey api (now - Z.of_nat i * hourMs))). exact H0.
  - now apply dayLoop_zero.
  - now apply monthLoop_zero.
Qed.

Lemma allZero_sum m : allZero m -> sumValues m = 0.
Proof.
  unfold sumValues. induction 1 as [|[k x] rest Hx Hrest IH]; simpl; [reflexivity|].
  simpl in Hx. lia.
Qed.


(** ** The aggregation loop *)

Lemma contribution_nonneg sale : 0 <= contribution sale.
Proof. unfold contribution. lia. Qed.

Section Aggregate.
Variables (inW : Z -> bool) (key : Z -> string).

Lemma aggregate_wellKept sales : forall m,
  wellKept m -> wellKept (aggregate inW key sales m).
Proof.
  unfold aggregate. induction sales as [|s sales IH]; intros m Hm; simpl; [assumption|].
  apply IH. destruct (inW (timestamp s)); [|assumption].
  apply wellKept_mapSet; [|assumption].
  pose proof (contribution_nonneg s).
  pose proof (getOrZero_nonneg m (key (timestamp s)) (proj2 Hm)). lia.
Qed.

Lemma aggregate_sum sales : forall m,
  sumValues (aggregate inW key sales m)
  = sumValues m + sumZ (map contribution (filter (fun s => inW (timestamp s)) sales)).
Proof.
  unfold aggregate. induction sales as [|s sales IH]; intro m; simpl; [lia|].
  rewrite IH. destruct (inW (timestamp s)); simpl; [rewrite mapSet_sum|]; lia.
Qed.


End Aggregate.

(** ** Sorting by key *)

Lemma localeCompare_trans a b c :
  localeCompare a b = Lt -> localeCompare b c = Lt -> localeCompare a c = Lt.
Proof.
  unfold localeCompare. intros H1 H2.
  apply String_as_OT.cmp_lt in H1. apply String_as_OT.cmp_lt in H2.
  apply String_as_OT.cmp_lt. exact (String_as_OT.lt_trans _ _ _ H1 H2).
Qed.


Lemma localeCompare_Gt_inv a b : String.compare b a = Lt -> String.compare a b = Gt.
Proof.
  intro H. pose proof (String_as_OT.cmp_antisym a b) as Ha.
  unfold String_as_OT.cmp in Ha. rewrite H in Ha. exact Ha.
Qed.


Lemma insertEntry_perm e l : Permutation (insertEntry e l) (e :: l).
Proof.
  induction l as [|y l IH]; simpl; [reflexivity|].
  destruct (localeCompare (fst e) (fst y)); try reflexivity.
  rewrite IH. apply perm_swap.
Qed.

Lemma sortEntries_perm l : Permutation (sortEntries l) l.
Proof.
  induction l as [|e l IH]; simpl; [reflexivity|].
  rewrite insertEntry_perm. now constructor.
Qed.



Lemma sumValues_perm m m' : Permutation m m' -> sumValues m = sumValues m'.
Proof.
  unfold sumValues. induction 1; simpl; lia.
Qed.


(** ** From entries to chart points *)


Lemma points_revenue api tf l : map revenue (map (toPoint api tf) l) = map snd l.
Proof. rewrite map_map. reflexivity. Qed.


(** ** The chart (claim C10) *)



(** C10 on a run with a sale dated after now: the hourly chart counts it,
    in a 49th bucket; the daily chart leaves it out. *)
Example C10_future_sale_run :
  let hourlyChart := chartData utc hourly march1 [freshSale; futureSale] in
  let dailyChart := chartData utc daily march1 [freshSale; futureSale] in
  List.length hourlyChart = 49%nat
  /\ bucketRevenue hourlyChart "2025-03-01-11" = 70
  /\ totalRevenue hourlyChart = 220
  /\ totalRevenue dailyChart = 150.
Proof. vm_compute. repeat split. Qed.

(** C10 on a run: the hourly chart of the two sales has the 48 buckets of
    the last 48 hours, the sale of an hour ago in the bucket of 08:00. *)
Example C10_hourly_run :
  let chart := chartData utc hourly march1 [oldSale; freshSale] in
  List.length chart = 48%nat
  /\ bucketRevenue chart "2025-03-01-08" = 150
  /\ bucketRevenue chart "2025-02-26-09" = 0
  /\ totalRevenue chart = 150.
Proof. vm_compute. repeat split. Qed.

(** ** Key order is calendar order

    Zero-padded fields make the order of the keys the order of the
    calendar, as long as years have four digits. *)

Lemma compare_refl (a : string) : String.compare a a = Eq.
Proof. now apply String_as_OT.cmp_eq. Qed.

Lemma compare_append (a b s t : string) :
  String.length a = String.length b ->
  String.compare (a ++ s) (b ++ t) = thenBy (String.compare a b) (String.compare s t).
Proof.
  revert b. induction a as [|x a IH]; intros [|y b] Hlen; simpl in *; try discriminate.
  - reflexivity.
  - destruct (Ascii.compare x y); try reflexivity.
    apply IH. now inversion Hlen.
Qed.

Lemma length_append (a b : string) :
  String.length (a ++ b) = (String.length a + String.length b)%nat.
Proof. induction a as [|x a IH]; simpl; [reflexivity | now rewrite IH]. Qed.

Lemma in_upFrom lo count n :
  lo <= n < lo + count -> In n (upFrom lo count).
Proof.
  intro H. unfold upFrom. apply in_map_iff. exists (Z.to_nat (n - lo)).
  split; [lia|]. apply in_seq. lia.
Qed.

Lemma two_checked :
  forallb (fun n =>
    Nat.eqb (String.length (two n)) 2
    && forallb (fun m => comparison_eqb (String.compare (two n) (two m)) (n ?= m))
               (upFrom 0 100))
    (upFrom 0 100) = true.
Proof. vm_compute. reflexivity. Qed.

Lemma comparison_eqb_eq c d : comparison_eqb c d = true -> c = d.
Proof. destruct c, d; simpl; intro H; try discriminate; reflexivity. Qed.

Lemma two_length n : 0 <= n <= 99 -> String.length (two n) = 2%nat.
Proof.
  intro Hn. pose proof two_checked as H. rewrite forallb_forall in H.
  specialize (H n (in_upFrom 0 100 n ltac:(lia))).
  apply andb_prop in H. destruct H as [H _]. now apply Nat.eqb_eq.
Qed.

Lemma two_compare n m :
  0 <= n <= 99 -> 0 <= m <= 99 -> String.compare (two n) (two m) = (n ?= m).
Proof.
  intros Hn Hm. pose proof two_checked as H. rewrite forallb_forall in H.
  specialize (H n (in_upFrom 0 100 n ltac:(lia))).
  apply andb_prop in H. destruct H as [_ H]. rewrite forallb_forall in H.
  apply comparison_eqb_eq, H, in_upFrom. lia.
Qed.

Lemma years_checked :
  forallb (fun y =>
    Nat.eqb (String.length (decimal y)) 4
    && comparison_eqb (String.compare (decimal y) (decimal (y + 1)))
                      (if y =? 9999 then Gt else Lt))
    (upFrom 1000 9000) = true.
Proof. vm_compute. reflexivity. Qed.

Lemma year_length y : 1000 <= y <= 9999 -> String.length (decimal y) = 4%nat.
Proof.
  intro Hy. pose proof years_checked as H. rewrite forallb_forall in H.
  specialize (H y (in_upFrom 1000 9000 y ltac:(lia))).
  apply andb_prop in H. destruct H as [H _]. now apply Nat.eqb_eq.
Qed.

Lemma year_next y : 1000 <= y < 9999 -> String.compare (decimal y) (decimal (y + 1)) = Lt.
Proof.
  intro Hy. pose proof years_checked as H. rewrite forallb_forall in H.
  specialize (H y (in_upFrom 1000 9000 y ltac:(lia))).
  apply andb_prop in H. destruct H as [_ H].
  apply comparison_eqb_eq in H. rewrite H.
  destruct (y =? 9999) eqn:E; [apply Z.eqb_eq in E; lia | reflexivity].
Qed.

Lemma year_lt y : forall k : nat,
  1000 <= y -> y + 1 + Z.of_nat k <= 9999 ->
  String.compare (decimal y) (decimal (y + 1 + Z.of_nat k)) = Lt.
Proof.
  induction k as [|k IH]; intros Hlo Hhi.
  - replace (y + 1 + Z.of_nat 0) with (y + 1) by lia. apply year_next. lia.
  - replace (y + 1 + Z.of_nat (S k)) with ((y + 1 + Z.of_nat k) + 1) by lia.
    apply (localeCompare_trans _ (decimal (y + 1 + Z.of_nat k))).
    + apply IH; lia.
    + apply year_next. lia.
Qed.

Lemma year_compare y y' :
  1000 <= y <= 9999 -> 1000 <= y' <= 9999 ->
  String.compare (decimal y) (decimal y') = (y ?= y').
Proof.
  intros Hy Hy'. destruct (Z.compare_spec y y') as [E | L | G].
  - subst. apply compare_refl.
  - replace y' with (y + 1 + Z.of_nat (Z.to_nat (y' - y - 1))) by lia.
    apply year_lt; lia.
  - apply localeCompare_Gt_inv.
    replace y with (y' + 1 + Z.of_nat (Z.to_nat (y - y' - 1))) by lia.
    apply year_lt; lia.
Qed.

Lemma monthKey_length api t : plausible api t -> String.length (monthKey api t) = 7%nat.
Proof.
  intros (Hy & Hm & _). unfold monthKey.
  rewrite !length_append, year_length, two_length by lia. reflexivity.
Qed.

Lemma dayKey_length api t : plausible api t -> String.length (dayKey api t) = 10%nat.
Proof.
  intros Hp. pose proof (monthKey_length api t Hp). destruct Hp as (_ & _ & Hd & _).
  unfold dayKey. rewrite !length_append, two_length by lia. simpl. lia.
Qed.

Lemma monthKey_compare api t1 t2 :
  plausible api t1 -> plausible api t2 ->
  localeCompare (monthKey api t1) (monthKey api t2) = calendarCompare api monthly t1 t2.
Proof.
  intros (Hy1 & Hm1 & _) (Hy2 & Hm2 & _). unfold localeCompare, monthKey, calendarCompare.
  rewrite compare_append by (rewrite !year_length by lia; reflexivity).
  rewrite year_compare by lia.
  rewrite (compare_append "-" "-") by reflexivity. simpl.
  rewrite two_compare by lia.
  rewrite (Z.add_comm (getMonth api t1)), (Z.add_comm (getMonth api t2)).
  rewrite Z.add_compare_mono_l. reflexivity.
Qed.

Lemma dayKey_compare api t1 t2 :
  plausible api t1 -> plausible api t2 ->
  localeCompare (dayKey api t1) (dayKey api t2) = calendarCompare api daily t1 t2.
Proof.
  intros Hp1 Hp2. pose proof (monthKey_compare api t1 t2 Hp1 Hp2) as Hm.
  pose proof (monthKey_length api t1 Hp1). pose proof (monthKey_length api t2 Hp2).
  destruct Hp1 as (_ & _ & Hd1 & _). destruct Hp2 as (_ & _ & Hd2 & _).
  unfold localeCompare, dayKey, calendarCompare in *.
  rewrite compare_append by congruence. rewrite Hm.
  rewrite (compare_append "-" "-") by reflexivity. simpl.
  rewrite two_compare by lia. reflexivity.
Qed.

Lemma hourKey_compare api t1 t2 :
  plausible api t1 -> plausible api t2 ->
  localeCompare (hourKey api t1) (hourKey api t2) = calendarCompare api hourly t1 t2.
Proof.
  intros Hp1 Hp2. pose proof (dayKey_compare api t1 t2 Hp1 Hp2) as Hd.
  pose proof (dayKey_length api t1 Hp1). pose proof (dayKey_length api t2 Hp2).
  destruct Hp1 as (_ & _ & _ & Hh1). destruct Hp2 as (_ & _ & _ & Hh2).
  unfold localeCompare, hourKey, calendarCompare in *.
  rewrite compare_append by congruence. rewrite Hd.
  rewrite (compare_append "-" "-") by reflexivity. simpl.
  rewrite two_compare by lia. reflexivity.
Qed.

(** X30.  For instants whose year has four digits, the order of the bucket keys
    is the order of the calendar: year, then month, then day, then hour. *)
Lemma key_order_is_calendar_order api tf t1 t2 :
  plausible api t1 -> plausible api t2 ->
  localeCompare (keyOf api tf t1) (keyOf api tf t2) = calendarCompare api tf t1 t2.
Proof.
  destruct tf; simpl keyOf.
  - apply hourKey_compare.
  - apply dayKey_compare.
  - apply monthKey_compare.
Qed.

(** ** More on the chart *)

Lemma fold_min_le (l : list Sale) : forall a,
  fold_left (fun m x => Z.min m (timestamp x)) l a <= a
  /\ (forall s, In s l -> fold_left (fun m x => Z.min m (timestamp x)) l a <= timestamp s)
  /\ (fold_left (fun m x => Z.min m (timestamp x)) l a = a
      \/ exists s, In s l /\ fold_left (fun m x => Z.min m (timestamp x)) l a = timestamp s).
Proof.
  induction l as [|x l IH]; intro a; simpl.
  - split; [lia|]. split; [intros s []|]. now left.
  - destruct (IH (Z.min a (timestamp x))) as (Hle & Hall & Hex).
    split; [lia|]. split.
    + intros s [<- | Hin]; [lia | now apply Hall].
    + destruct Hex as [Heq | (s & Hin & Heq)].
      * destruct (Z.min_spec a (timestamp x)) as [[_ Hm] | [_ Hm]].
        -- left. rewrite Heq. exact Hm.
        -- right. exists x. split; [now left | rewrite Heq; exact Hm].
      * right. exists s. split; [now right | exact Heq].
Qed.

Lemma earliestSaleDate_none sales : earliestSaleDate sales = None -> sales = [].
Proof. destruct sales; [reflexivity | discriminate]. Qed.

Lemma earliestSaleDate_least sales e :
  earliestSaleDate sales = Some e ->
  (exists s, In s sales /\ timestamp s = e) /\ forall s, In s sales -> e <= timestamp s.
Proof.
  destruct sales as [|s0 rest]; simpl; [discriminate|].
  intro He. inversion He as [He']. clear He.
  destruct (fold_min_le rest (timestamp s0)) as (Hle & Hall & Hex).
  split.
  - destruct Hex as [Heq | (s & Hin & Heq)].
    + exists s0. split; [now left | now symmetry].
    + exists s. split; [now right | now symmetry].
  - intros s [<- | Hin]; [exact Hle | now apply Hall].
Qed.

(** X25.  [earliestSaleDate] is the least timestamp of the sales: it is
    absent exactly when there are no sales, and otherwise it is the
    timestamp of one of the sales and not later than any of them. *)
Theorem earliestSaleDate_is_least sales :
  (earliestSaleDate sales = None <-> sales = [])
  /\ forall e, earliestSaleDate sales = Some e ->
       (exists s, In s sales /\ timestamp s = e)
       /\ forall s, In s sales -> e <= timestamp s.
Proof.
  split.
  - split; [apply earliestSaleDate_none | intros ->; reflexivity].
  - apply earliestSaleDate_least.
Qed.

Lemma earliestSaleDate_is_least_witness :
  earliestSaleDate [freshSale; oldSale; lastYearSale] = Some (timestamp lastYearSale)
  /\ timestamp lastYearSale <= timestamp oldSale.
Proof.
  destruct (earliestSaleDate_is_least [freshSale; oldSale; lastYearSale]) as [_ H].
  destruct (H (timestamp lastYearSale) eq_refl) as [_ Hall].
  split; [reflexivity | apply Hall; simpl; tauto].
Defined.

(** X26.  Which sales the chart counts: when the runtime puts the start of
    a day (of a month) at or before the instants of that day (month), a
    sale is aggregated exactly when it is not older than the cap of the
    timeframe - 48 hours, 365 days, or the first of the month 35 months
    back - and, for the daily and monthly charts, not later than now. *)
Theorem counted_sales_are_the_recent_ones api tf now sales :
  (forall e, earliestSaleDate sales = Some e -> bucketStart api tf e <= e) ->
  forall s, In s sales ->
    (inWindow api tf now sales (timestamp s) = true
     <-> windowCap api tf now <= timestamp s /\ (tf = hourly \/ timestamp s <= now)).
Proof.
  intros Hstart s Hin.
  destruct (earliestSaleDate sales) as [e|] eqn:He.
  2:{ apply earliestSaleDate_none in He. subst sales. destruct Hin. }
  destruct (earliestSaleDate_least _ _ He) as [_ Hall].
  specialize (Hstart e eq_refl). specialize (Hall s Hin).
  destruct tf; unfold inWindow, windowCap, dailyStart, monthlyStart, bucketStart in *;
    rewrite ?He.
  - rewrite Z.leb_le. split; [intro H; split; [exact H | now left] | tauto].
  - rewrite andb_true_iff, !Z.leb_le. split.
    + intros [H1 H2]. split; [lia | now right].
    + intros [H1 [H2 | H2]]; [discriminate | lia].
  - rewrite andb_true_iff, !Z.leb_le. split.
    + intros [H1 H2]. split; [lia | now right].
    + intros [H1 [H2 | H2]]; [discriminate | lia].
Qed.

Lemma counted_sales_are_the_recent_ones_witness :
  let sales := [oldSale; freshSale; lastYearSale] in
  inWindow utc daily march1 sales (timestamp lastYearSale) = true
  /\ inWindow utc hourly march1 sales (timestamp oldSale) = false.
Proof.
  intro sales.
  assert (Hd : forall e, earliestSaleDate sales = Some e -> bucketStart utc daily e <= e).
  { intros e He. vm_compute in He. inversion He; subst e. vm_compute. discriminate. }
  assert (Hh : forall e, earliestSaleDate sales = Some e -> bucketStart utc hourly e <= e).
  { intros e _. simpl. lia. }
  split.
  - apply (counted_sales_are_the_recent_ones utc daily march1 sales Hd lastYearSale);
      [simpl; tauto|].
    split; [vm_compute; discriminate | right; vm_compute; discriminate].
  - destruct (inWindow utc hourly march1 sales (timestamp oldSale)) eqn:E; [|reflexivity].
    apply (counted_sales_are_the_recent_ones utc hourly march1 sales Hh oldSale) in E;
      [|simpl; tauto].
    destruct E as [E _]. vm_compute in E. now elim E.
Defined.

(** The displayed total, from the lemmas on the map. *)
Lemma totalRevenue_counted api tf now sales :
  totalRevenue (chartData api tf now sales)
  = sumZ (map contribution (counted api tf now sales)).
Proof.
  unfold chartData.
  destruct (emptyBuckets_zero api tf now sales) as [_ Hz0].
  rewrite totalRevenue_sum, points_revenue.
  fold (sumValues (sortEntries
          (aggregate (inWindow api tf now sales) (keyOf api tf) sales
                     (emptyBuckets api tf now sales)))).
  rewrite (sumValues_perm _ _ (sortEntries_perm _)).
  rewrite aggregate_sum, (allZero_sum _ Hz0). unfold counted. lia.
Qed.



Lemma aggregate_none inW key sales : forall m,
  (forall s, In s sales -> inW (timestamp s) = false) ->
  aggregate inW key sales m = m.
Proof.
  unfold aggregate. induction sales as [|s sales IH]; intros m H; simpl; [reflexivity|].
  rewrite (H s (or_introl eq_refl)). apply IH. intros x Hx. apply H. now right.
Qed.

(** X28.  A chart none of whose sales lies in the window - in particular
    the chart of no sales - shows the buckets of the timeframe with a
    revenue of 0 each and a total of 0. *)
Theorem chart_without_counted_sales api tf now sales :
  counted api tf now sales = [] ->
  Forall (fun p => revenue p = 0) (chartData api tf now sales)
  /\ totalRevenue (chartData api tf now sales) = 0
  /\ map label (chartData api tf now sales)
     = map fst (sortEntries (emptyBuckets api tf now sales)).
Proof.
  intro Hnone.
  assert (Hout : forall s, In s sales -> inWindow api tf now sales (timestamp s) = false).
  { intros s Hin. destruct (inWindow api tf now sales (timestamp s)) eqn:E; [|reflexivity].
    assert (Hc : In s (counted api tf now sales)) by (apply filter_In; split; assumption).
    rewrite Hnone in Hc. destruct Hc. }
  split; [|split].
  - unfold chartData. rewrite (aggregate_none _ _ _ _ Hout).
    destruct (emptyBuckets_zero api tf now sales) as [_ Hz0].
    apply Forall_map.
    eapply Permutation_Forall; [symmetry; apply sortEntries_perm|].
    eapply Forall_impl; [|exact Hz0]. intros e He. exact He.
  - rewrite totalRevenue_counted, Hnone. reflexivity.
  - unfold chartData. rewrite (aggregate_none _ _ _ _ Hout), map_map. reflexivity.
Qed.

Lemma chart_without_counted_sales_witness :
  totalRevenue (chartData utc monthly march1 []) = 0
  /\ List.length (chartData utc monthly march1 []) = 36%nat
  /\ totalRevenue (chartData utc hourly march1 [oldSale]) = 0.
Proof.
  destruct (chart_without_counted_sales utc monthly march1 [] eq_refl) as (_ & H1 & _).
  destruct (chart_without_counted_sales utc hourly march1 [oldSale] eq_refl) as (_ & H2 & _).
  split; [exact H1|]. split; [vm_compute; reflexivity | exact H2].
Defined.

(** ** Which buckets exist *)

Lemma mapSet_has_key m key v : In key (map fst (mapSet m key v)).
Proof.
  induction m as [|[k x] rest IH]; simpl; [now left|].
  destruct (k =? key)%string eqn:E; simpl.
  - left. now apply String.eqb_eq.
  - right. exact IH.
Qed.

Lemma mapSet_keeps_keys m key v k : In k (map fst m) -> In k (map fst (mapSet m key v)).
Proof.
  rewrite mapSet_keys. destruct (existsb _ (map fst m)); [tauto|].
  intro H. apply in_or_app. now left.
Qed.

Lemma aggregate_keeps_keys inW key sales k : forall m,
  In k (map fst m) -> In k (map fst (aggregate inW key sales m)).
Proof.
  unfold aggregate. induction sales as [|s sales IH]; intros m H; simpl; [exact H|].
  apply IH. destruct (inW (timestamp s)); [now apply mapSet_keeps_keys | exact H].
Qed.

Lemma aggregate_has_keys inW key sales : forall m s,
  In s sales -> inW (timestamp s) = true ->
  In (key (timestamp s)) (map fst (aggregate inW key sales m)).
Proof.
  induction sales as [|x sales IH]; intros m s Hin Hw; [destruct Hin|].
  destruct Hin as [<- | Hin].
  - unfold aggregate. simpl. rewrite Hw.
    apply (aggregate_keeps_keys inW key sales). apply mapSet_has_key.
  - unfold aggregate. simpl. now apply IH.
Qed.

Lemma fold_set_keeps {A} (key : A -> string) (l : list A) k : forall m,
  In k (map fst m) -> In k (map fst (fold_left (fun m i => mapSet m (key i) 0) l m)).
Proof.
  induction l as [|i l IH]; intros m H; simpl; [exact H|].
  apply IH. now apply mapSet_keeps_keys.
Qed.

Lemma fold_set_has {A} (key : A -> string) (l : list A) : forall m i,
  In i l -> In (key i) (map fst (fold_left (fun m i => mapSet m (key i) 0) l m)).
Proof.
  induction l as [|x l IH]; intros m i Hin; [destruct Hin|].
  destruct Hin as [<- | Hin]; simpl.
  - apply fold_set_keeps. apply mapSet_has_key.
  - now apply IH.
Qed.

Lemma labels_of_chart api tf now sales :
  Permutation
    (map label (chartData api tf now sales))
    (map fst (aggregate (inWindow api tf now sales) (keyOf api tf) sales
                        (emptyBuckets api tf now sales))).
Proof.
  unfold chartData. rewrite map_map. simpl.
  change (fun x => fst x) with (@fst string Z).
  apply Permutation_map, sortEntries_perm.
Qed.

(** X29.  The buckets of the chart: no key labels two points; every bucket
    that starts at 0 is there, so the hourly chart has a point for each of
    the last 48 hours; and every sale inside the window has the point of
    its key. *)
Theorem chart_buckets api tf now sales :
  NoDup (map label (chartData api tf now sales))
  /\ (forall key, In key (map fst (emptyBuckets api tf now sales)) ->
        In key (map label (chartData api tf now sales)))
  /\ (forall i, 0 <= i <= 47 ->
        In (hourKey api (now - i * hourMs)) (map label (chartData api hourly now sales)))
  /\ (forall s, In s sales -> inWindow api tf now sales (timestamp s) = true ->
        In (keyOf api tf (timestamp s)) (map label (chartData api tf now sales))).
Proof.
  split; [|split; [|split]].
  - eapply Permutation_NoDup; [symmetry; apply labels_of_chart|].
    destruct (emptyBuckets_zero api tf now sales) as [Hk0 _].
    apply (aggregate_wellKept (inWindow api tf now sales) (keyOf api tf) sales) in Hk0.
    exact (proj1 Hk0).
  - intros key Hin.
    eapply Permutation_in; [symmetry; apply labels_of_chart|].
    now apply aggregate_keeps_keys.
  - intros i Hi.
    eapply Permutation_in; [symmetry; apply labels_of_chart|].
    apply aggregate_keeps_keys. unfold emptyBuckets, hourlyBuckets.
    replace i with (Z.of_nat (Z.to_nat i)) by lia.
    apply (fold_set_has (fun n => hourKey api (now - Z.of_nat n * hourMs))).
    rewrite <- in_rev. apply in_seq. lia.
  - intros s Hin Hw.
    eapply Permutation_in; [symmetry; apply labels_of_chart|].
    now apply aggregate_has_keys.
Qed.

Lemma chart_buckets_witness :
  In "2025-03-01-08"%string (map label (chartData utc hourly march1 [oldSale; freshSale]))
  /\ In "2025-02-27-10"%string (map label (chartData utc hourly march1 [oldSale; freshSale])).
Proof.
  destruct (chart_buckets utc hourly march1 [oldSale; freshSale]) as (_ & _ & Hh & Hs).
  split.
  - apply (Hs freshSale); [simpl; tauto | reflexivity].
  - apply (Hh 47). lia.
Defined.

Lemma key_order_is_calendar_order_witness :
  localeCompare (keyOf utc daily (timestamp lastYearSale)) (keyOf utc daily march1) = Lt
  /\ calendarCompare utc daily (timestamp lastYearSale) march1 = Lt.
Proof.
  assert (H1 : plausible utc march1) by (vm_compute; repeat split; discriminate).
  assert (H2 : plausible utc (timestamp lastYearSale))
    by (vm_compute; repeat split; discriminate).
  rewrite (key_order_is_calendar_order utc daily _ _ H2 H1). split; reflexivity.
Defined.

End SalesTrendChartFacts.
